(** * BotZakazov: the order bot of a 3D-printing shop (Main.py)

    A shallow embedding of [Main.py]: the product catalogue read from
    [products.txt], the SQLite tables [users] and [cart_items], the order
    ledger kept in [orders.xlsx], and the Telegram handlers that drive them.

    Conventions of the model.
    - Python [int] values (user ids, product ids, quantities) are [Z].
      SQLite stores integers of 64 bits: where [add_to_cart] binds an
      integer outside that range, [sqlite3] raises [OverflowError] and the
      transaction is rolled back. The other statements bind no integer but
      the Telegram id of the user, which is within the range.
    - Python [str] values are [string]; in the text the bot inspects
      (catalogue lines, callback data, names) a character stands for a code
      point below 256. The constant captions of the bot are never inspected
      and are kept as they are written in the source.
    - [float] is not modelled: the type of prices and the builtin [float()]
      are the two fields of the class [FloatModel], and every general
      theorem holds for every instance.
    - A Python exception is a [None] result; the enclosing [try]/[except]
      of the source decides what becomes of it.
    - The worksheet of [orders.xlsx] is the list of its rows of cells.
      What [ws.append] stores is what openpyxl makes of the values (strings
      are cut to 32767 characters, a control character is refused); a
      workbook that was saved is taken to load as it was saved.
    - What the bot cannot control (the content of [products.txt], the clock,
      whether [orders.xlsx] can be loaded and saved) is the record [Env];
      what it owns is the record [World]. *)

From Stdlib Require Import ZArith Ascii String List Sorted Lia.
From stdpp Require Import base option list strings gmap pretty.

Local Open Scope string_scope.
Local Open Scope list_scope.
Local Open Scope Z_scope.

(** ** Python string primitives used by the bot *)

Module Py.

(** [str.isspace] on code points below 256. *)
Definition isspace (c : ascii) : bool :=
  let n := N_of_ascii c in
  ((9 <=? n) && (n <=? 13) || (28 <=? n) && (n <=? 32)
   || (n =? 133) || (n =? 160))%N.

Fixpoint lstrip (s : string) : string :=
  match s with
  | EmptyString => EmptyString
  | String c r => if isspace c then lstrip r else s
  end.

Fixpoint rstrip (s : string) : string :=
  match s with
  | EmptyString => EmptyString
  | String c r =>
      match rstrip r with
      | EmptyString => if isspace c then EmptyString else String c EmptyString
      | r' => String c r'
      end
  end.

(** [s.strip()] *)
Definition strip (s : string) : string := rstrip (lstrip s).

(** [c in s] for a one-character [c]. *)
Fixpoint contains (c : ascii) (s : string) : bool :=
  match s with
  | EmptyString => false
  | String d r => if Ascii.eqb c d then true else contains c r
  end.

(** [s.partition(c)]: the text before and after the first [c], if any. *)
Fixpoint partition (c : ascii) (s : string) : option (string * string) :=
  match s with
  | EmptyString => None
  | String d r =>
      if Ascii.eqb c d then Some (EmptyString, r)
      else match partition c r with
           | Some (a, b) => Some (String d a, b)
           | None => None
           end
  end.

(** [s.split(c, maxsplit)] *)
Fixpoint split_max (c : ascii) (maxsplit : nat) (s : string) : list string :=
  match maxsplit with
  | O => [s]
  | S k =>
      match partition c s with
      | Some (a, b) => a :: split_max c k b
      | None => [s]
      end
  end.

(** [s.split(c)] *)
Fixpoint split (c : ascii) (s : string) : list string :=
  match s with
  | EmptyString => [EmptyString]
  | String d r =>
      if Ascii.eqb c d then EmptyString :: split c r
      else match split c r with
           | h :: t => String d h :: t
           | [] => [String d EmptyString]
           end
  end.

(** [s.startswith(p)] *)
Fixpoint startswith (p s : string) : bool :=
  match p, s with
  | EmptyString, _ => true
  | String _ _, EmptyString => false
  | String a p', String b s' => Ascii.eqb a b && startswith p' s'
  end.

(** Truth value of a string: [bool(s)]. *)
Definition nonempty (s : string) : bool :=
  match s with EmptyString => false | _ => true end.

Definition digit (c : ascii) : option Z :=
  let n := N_of_ascii c in
  if ((48 <=? n) && (n <=? 57))%N then Some (Z.of_N (n - 48)) else None.

(** Decimal digits, single underscores allowed between two digits. *)
Fixpoint digits (acc : Z) (after_digit : bool) (s : string) : option Z :=
  match s with
  | EmptyString => if after_digit then Some acc else None
  | String c r =>
      match digit c with
      | Some d => digits (10 * acc + d) true r
      | None =>
          if Ascii.eqb c "_" && after_digit then digits acc false r
          else None
      end
  end.

(** The whitespace that [int()] skips around a numeral: below 128 only
    [\t], [\n], [\v], [\f], [\r] and the space (not U+001C..U+001F, which
    [str.strip] removes and [int()] refuses), above it the spaces U+0085
    and U+00A0. *)
Definition int_space (c : ascii) : bool :=
  let n := N_of_ascii c in
  ((9 <=? n) && (n <=? 13) || (n =? 32) || (n =? 133) || (n =? 160))%N.

(** [s] without its leading, and without its trailing, characters of the
    class [sp]. *)
Fixpoint lskip (sp : ascii -> bool) (s : string) : string :=
  match s with
  | EmptyString => EmptyString
  | String c r => if sp c then lskip sp r else s
  end.

Fixpoint rskip (sp : ascii -> bool) (s : string) : string :=
  match s with
  | EmptyString => EmptyString
  | String c r =>
      match rskip sp r with
      | EmptyString => if sp c then EmptyString else String c EmptyString
      | r' => String c r'
      end
  end.

(** [int(s)]; [None] stands for [ValueError]. The bound that recent
    versions of Python put on the number of digits (4300) is far above the
    64 bytes of callback data and is left out. *)
Definition int (s : string) : option Z :=
  match rskip int_space (lskip int_space s) with
  | String "-" r => Z.opp <$> digits 0 false r
  | String "+" r => digits 0 false r
  | t => digits 0 false t
  end.

(** [s.split()]: the maximal runs of characters that are not whitespace. *)
Fixpoint words (s : string) : list string :=
  match s with
  | EmptyString => []
  | String c r =>
      if isspace c then words r
      else match r with
           | EmptyString => [String c EmptyString]
           | String d _ =>
               if isspace d then String c EmptyString :: words r
               else match words r with
                    | h :: t => String c h :: t
                    | [] => [String c EmptyString]
                    end
           end
  end.

(** [sep.join(l)] *)
Fixpoint join (sep : string) (l : list string) : string :=
  match l with
  | [] => EmptyString
  | [x] => x
  | x :: r => x +:+ sep +:+ join sep r
  end.

(** A slice bound brought into [0 .. n], counted from the end when
    negative. *)
Definition bound (n i : Z) : Z :=
  if i <? 0 then Z.max (i + n) 0 else Z.min i n.

(** [l[start:stop]] *)
Definition slice {A} (l : list A) (start stop : Z) : list A :=
  let n := Z.of_nat (length l) in
  let a := bound n start in
  let b := bound n stop in
  take (Z.to_nat (b - a)) (drop (Z.to_nat a) l).

End Py.

(** ** Prices *)

(** The builtin [float()] and the type of its results. [None] stands for
    [ValueError]. *)
Class FloatModel := {
  pyfloat : Type;
  float : string -> option pyfloat
}.

(** An instance that reads plain decimal numerals ([150.00], [-3], [.5])
    exactly, as a mantissa and a number of fractional digits. It is used to
    evaluate the model on concrete catalogues. *)
Definition decimal_of_string (s : string) : option (Z * nat) :=
  let t := Py.strip s in
  let '(neg, body) :=
    match t with
    | String "-" r => (true, r)
    | String "+" r => (false, r)
    | _ => (false, t)
    end in
  let sign (m : Z) := if neg : bool then - m else m in
  match Py.partition "." body with
  | None => m ← Py.digits 0 false body; Some (sign m, O)
  | Some (i, f) =>
      match i, f with
      | EmptyString, EmptyString => None
      | _, EmptyString => m ← Py.digits 0 false i; Some (sign m, O)
      | EmptyString, _ => m ← Py.digits 0 false f; Some (sign m, String.length f)
      | _, _ =>
          a ← Py.digits 0 false i;
          m ← Py.digits a false f;
          Some (sign m, String.length f)
      end
  end.

Definition DecimalFloat : FloatModel :=
  {| pyfloat := Z * nat; float := decimal_of_string |}.

(** ** ProductRepository *)

Section Catalog.
Context `{FloatModel}.

Record Product := {
  id : Z;
  name : string;
  price : pyfloat;
  description : string
}.

(** The body of the loop of [get_all_products] for a line that passed the
    guard: unpack [line.split('|', 2)] into three names and build the
    [Product]. [None] when the unpacking or [float()] raises. *)
Definition product_of_line (idx : Z) (line : string) : option Product :=
  match Py.split_max "|" 2 line with
  | [n; p; d] =>
      p' ← float (Py.strip p);
      Some {| id := idx; name := Py.strip n; price := p';
              description := Py.strip d |}
  | _ => None
  end.

(** The guard [if line and '|' in line]. *)
Definition is_record (line : string) : bool :=
  Py.nonempty line && Py.contains "|" line.

(** The loop [for idx, line in enumerate(f, 1)], from line number [idx].
    An exception raised in the body leaves the loop: the [except] clause
    logs it and the products appended so far are returned. *)
Fixpoint read_products (idx : Z) (lines : list string) : list Product :=
  match lines with
  | [] => []
  | raw :: rest =>
      let line := Py.strip raw in
      if is_record line then
        match product_of_line idx line with
        | Some p => p :: read_products (idx + 1) rest
        | None => []
        end
      else read_products (idx + 1) rest
  end.

(** [ProductRepository.get_all_products]. The argument is what iterating
    over the open file yields, one string per line (with its line terminator
    or without: the loop strips it); [None] when [open] raises. *)
Definition get_all_products (f : option (list string)) : list Product :=
  match f with
  | Some lines => read_products 1 lines
  | None => []
  end.

(** [next((p for p in products if p.id == product_id), None)] *)
Definition find_product (products : list Product) (product_id : Z)
  : option Product :=
  List.find (fun p => id p =? product_id) products.

(** A line that the loop turns into a product: it passes the guard, and
    neither the unpacking nor [float()] raises. *)
Definition well_formed (raw : string) : Prop :=
  is_record (Py.strip raw) = true
  /\ is_Some (product_of_line 0 (Py.strip raw)).

(** [ProductRepository.get_product_by_id] *)
Definition get_product_by_id (f : option (list string)) (product_id : Z)
  : option Product :=
  find_product (get_all_products f) product_id.

End Catalog.

(** ** DatabaseManager *)

(** A row of the table [cart_items] (the columns the bot reads). *)
Record CartRow := {
  user_id : Z;
  product_id : Z;
  quantity : Z
}.

(** [print_shop.db]: the table [users], keyed by its primary key [user_id],
    holding [(first_name, last_name)], and the table [cart_items] in rowid
    order. *)
Record Database := {
  users : gmap Z (string * string);
  cart_items : list CartRow
}.

(** [WHERE user_id = ? AND product_id = ?] *)
Definition cart_key (u p : Z) (r : CartRow) : bool :=
  (user_id r =? u) && (product_id r =? p).

(** [DatabaseManager.add_user]: [INSERT OR REPLACE INTO users]. *)
Definition add_user (db : Database) (u : Z) (first_name last_name : string)
  : Database :=
  {| users := <[u := (first_name, last_name)]> (users db);
     cart_items := cart_items db |}.

(** [DatabaseManager.get_user] *)
Definition get_user (db : Database) (u : Z) : option (string * string) :=
  users db !! u.

(** [UPDATE cart_items SET quantity = ? WHERE user_id = ? AND product_id = ?] *)
Definition update_quantity (u p new_quantity : Z) (r : CartRow) : CartRow :=
  if cart_key u p r
  then {| user_id := user_id r; product_id := product_id r;
          quantity := new_quantity |}
  else r.

(** The integers that [sqlite3] binds to a statement: those of 64 bits.
    Binding any other raises [OverflowError]. *)
Definition sqlite_int (z : Z) : bool :=
  (- 2 ^ 63 <=? z) && (z <? 2 ^ 63).

(** The statements of [DatabaseManager.add_to_cart], inside their
    [with sqlite3.connect(...)] block: the [SELECT] binds the user and the
    product, then the [UPDATE] binds the new quantity or the [INSERT] the
    requested one. [None] when a binding raises [OverflowError]; the block
    then rolls back and the exception leaves the function. *)
Definition add_to_cart_txn (db : Database) (u p q : Z) : option Database :=
  if sqlite_int u && sqlite_int p then
    match List.find (cart_key u p) (cart_items db) with
    | Some existing =>
        let new_quantity := quantity existing + q in
        if sqlite_int new_quantity then
          Some {| users := users db;
                  cart_items :=
                    map (update_quantity u p new_quantity) (cart_items db) |}
        else None
    | None =>
        if sqlite_int q then
          Some {| users := users db;
                  cart_items :=
                    cart_items db
                    ++ [{| user_id := u; product_id := p; quantity := q |}] |}
        else None
    end
  else None.

(** [DatabaseManager.add_to_cart], as the database it leaves: the one the
    statements made, or, when a binding raised, the database as it was. *)
Definition add_to_cart (db : Database) (u p q : Z) : Database :=
  default db (add_to_cart_txn db u p q).

(** [DatabaseManager.clear_cart]: [DELETE FROM cart_items WHERE user_id = ?]. *)
Definition clear_cart_rows (db : Database) (u : Z) : Database :=
  {| users := users db;
     cart_items := List.filter (fun r => negb (user_id r =? u)) (cart_items db) |}.

Section Cart.
Context `{FloatModel}.

(** An element of the result of [get_cart_items]:
    [(product.id, product.name, product.price, quantity)]. *)
Definition CartItem : Type := Z * string * pyfloat * Z.

(** [DatabaseManager.get_cart_items]; [f] is [products.txt] as read by the
    manager's own [ProductRepository]. *)
Definition get_cart_items (f : option (list string)) (db : Database) (u : Z)
  : list CartItem :=
  let cart_data :=
    map (fun r => (product_id r, quantity r))
        (List.filter (fun r => user_id r =? u) (cart_items db)) in
  let products := get_all_products f in
  omap (fun '(pid, q) =>
          match find_product products pid with
          | Some product => Some (id product, name product, price product, q)
          | None => None
          end) cart_data.

End Cart.

(** ** ExcelExporter *)

(** The value of a worksheet cell. *)
Inductive Cell :=
  | CNone
  | CStr (s : string)
  | CInt (z : Z).

(** Truth value of a cell value. *)
Definition truthy (c : Cell) : bool :=
  match c with
  | CNone => false
  | CStr s => Py.nonempty s
  | CInt z => negb (z =? 0)
  end.

(** [value == full_name] for a cell value and a string. *)
Definition cell_is (c : Cell) (s : string) : bool :=
  match c with
  | CStr t => String.eqb t s
  | _ => false
  end.

(** The active worksheet of [orders.xlsx]: its rows from row 1 (the header),
    each with the cells it holds from column 1. *)
Definition Sheet : Type := list (list Cell).

(** The header written by [_ensure_excel_file]. *)
Definition headers : list Cell :=
  map CStr ["Дата"; "Имя Фамилия"; "Товар 1"; "Кол-во 1"; "Товар 2";
            "Кол-во 2"; "Товар 3"; "Кол-во 3"; "Товар 4"; "Кол-во 4"].

(** [ws.max_column] *)
Definition max_column (ws : Sheet) : nat :=
  foldr (fun row w => Nat.max (length row) w) O ws.

(** [ws.iter_rows(min_row=2, values_only=True)]: every row after the first,
    as a tuple as wide as the sheet, [None] where the row has no cell. *)
Definition iter_rows_from_2 (ws : Sheet) : list (list Cell) :=
  let w := max_column ws in
  map (fun row => row ++ replicate (w - length row)%nat CNone) (drop 1 ws).

(** An entry of [order_data['items']]: the dict with keys ['product'] and
    ['quantity']. *)
Record OrderItem := {
  product : Cell;
  item_quantity : Cell
}.

(** [order_data]: the dict with keys ['date'] and ['items']. *)
Record Order := {
  date : Cell;
  items : list OrderItem
}.

(** The loop [for i in range(2, len(row), 2)] over the cells from index 2.
    [None] when [row[i+1]] raises [IndexError]. *)
Fixpoint scan_items (cells : list Cell) : option (list OrderItem) :=
  match cells with
  | [] => Some []
  | [c] => if truthy c then None else Some []
  | c :: q :: rest =>
      its ← scan_items rest;
      Some (if truthy c && truthy q
            then {| product := c; item_quantity := q |} :: its
            else its)
  end.

(** The loop over the rows in [get_user_orders]. [None] when an index
    raises. *)
Fixpoint collect_orders (full_name : string) (rows : list (list Cell))
  : option (list Order) :=
  match rows with
  | [] => Some []
  | row :: rest =>
      match row with
      | [] => collect_orders full_name rest
      | [_] => None
      | c0 :: c1 :: cells =>
          if negb (truthy c1) then collect_orders full_name rest
          else if cell_is c1 full_name then
            its ← scan_items cells;
            orders ← collect_orders full_name rest;
            Some ({| date := c0; items := its |} :: orders)
          else collect_orders full_name rest
      end
  end.

(** [ExcelExporter.get_user_orders]. [loads] tells whether the file exists
    and [load_workbook] returns; every exception gives the empty list. *)
Definition get_user_orders (loads : bool) (ws : Sheet) (full_name : string)
  : list Order :=
  if loads then default [] (collect_orders full_name (iter_rows_from_2 ws))
  else [].

(** The characters that a worksheet cannot hold ([ILLEGAL_CHARACTERS_RE]
    of openpyxl, [[\000-\010]|[\013-\014]|[\016-\037]]): the control
    characters other than the tab, the line feed and the carriage return. *)
Definition illegal_character (c : ascii) : bool :=
  let n := N_of_ascii c in
  ((n <=? 8) || (11 <=? n) && (n <=? 12) || (14 <=? n) && (n <=? 31))%N.

Fixpoint has_illegal_character (s : string) : bool :=
  match s with
  | EmptyString => false
  | String c r => illegal_character c || has_illegal_character r
  end.

(** [value[:n]] *)
Fixpoint first_chars (n : N) (value : string) : string :=
  match value with
  | EmptyString => EmptyString
  | String c r =>
      if (n =? 0)%N then EmptyString else String c (first_chars (N.pred n) r)
  end.

(** [value[:32767]], the longest string that a cell holds. *)
Definition truncate (value : string) : string := first_chars 32767 value.

(** [Cell.check_string] of openpyxl, which every string stored in a cell
    passes through: the string is cut to its first 32767 characters, and
    what is left is refused when it holds an illegal character. [None]
    stands for [IllegalCharacterError]. *)
Definition check_string (value : string) : option string :=
  let value := truncate value in
  if has_illegal_character value then None else Some value.

(** The cell that [ws.append] makes of one value of the row. *)
Definition bind_cell (value : Cell) : option Cell :=
  match value with
  | CStr s => CStr <$> check_string s
  | _ => Some value
  end.

(** [ws.append(row)]: the row is added below the last one, or nothing is
    when one of its values is refused. *)
Definition ws_append (ws : Sheet) (row : list Cell) : option Sheet :=
  cells ← mapM bind_cell row; Some (ws ++ [cells]).

Section Ledger.
Context `{FloatModel}.

(** [row_data] of [add_order]: the date, the name, then the name and the
    quantity of every cart item. *)
Definition row_data (now full_name : string) (cart : list CartItem)
  : list Cell :=
  [CStr now; CStr full_name]
  ++ flat_map (fun '(_, n, _, q) => [CStr n; CInt q]) cart.

(** [ExcelExporter.add_order]. [loads] and [saves] tell whether
    [load_workbook] and [wb.save] return. The [try] block holds the load,
    [ws.append(row_data)] and the save: when any of the three raises, the
    function returns [False] and the file is as it was. *)
Definition add_order (loads saves : bool) (now : string) (ws : Sheet)
    (full_name : string) (cart : list CartItem) : bool * Sheet :=
  if loads then
    match ws_append ws (row_data now full_name cart) with
    | Some ws' => if saves then (true, ws') else (false, ws)
    | None => (false, ws)
    end
  else (false, ws).

End Ledger.

(** ** The world of the bot *)

(** What each update finds outside the bot: [products.txt] as the file
    iterator yields it ([None] when it cannot be opened), the clock, and
    whether [orders.xlsx] can be loaded and saved. *)
Record Env := {
  products_txt : option (list string);
  now : string;
  xlsx_loads : bool;
  xlsx_saves : bool
}.

(** The states of the [ConversationHandler]. *)
Inductive ConvState := GET_NAME | MAIN_MENU.

(** What a callback of the conversation returns: [None], a state, or
    [ConversationHandler.END]. *)
Inductive Next := Stay | To (s : ConvState) | END.

(** The state the bot owns: the database, the worksheet of [orders.xlsx],
    [context.user_data] of every user, and the state of every user's
    conversation. *)
Record World := {
  db : Database;
  orders_xlsx : Sheet;
  user_data : gmap Z (gmap string Z);
  conversations : gmap Z ConvState
}.

(** [context.user_data] of user [u]. *)
Definition session (w : World) (u : Z) : gmap string Z :=
  default ∅ (user_data w !! u).

Definition set_db (w : World) (d : Database) : World :=
  {| db := d; orders_xlsx := orders_xlsx w; user_data := user_data w;
     conversations := conversations w |}.

Definition set_orders_xlsx (w : World) (ws : Sheet) : World :=
  {| db := db w; orders_xlsx := ws; user_data := user_data w;
     conversations := conversations w |}.

(** [context.user_data[key] = v] for user [u]. *)
Definition set_user_data (w : World) (u : Z) (key : string) (v : Z) : World :=
  {| db := db w; orders_xlsx := orders_xlsx w;
     user_data := <[u := <[key := v]> (session w u)]> (user_data w);
     conversations := conversations w |}.

Definition set_conversation (w : World) (u : Z) (n : Next) : World :=
  {| db := db w; orders_xlsx := orders_xlsx w; user_data := user_data w;
     conversations :=
       match n with
       | Stay => conversations w
       | To s => <[u := s]> (conversations w)
       | END => delete u (conversations w)
       end |}.

(** The bot as it starts on a database and a ledger: no [user_data], no
    conversation. *)
Definition boot (d : Database) (ws : Sheet) : World :=
  {| db := d; orders_xlsx := ws; user_data := ∅; conversations := ∅ |}.

(** ** Views and handlers *)

Section Handlers.
Context `{FloatModel}.

(** The text of a button: a constant, or the line
    [f"{product.name} - {product.price}₽"] of the catalogue. *)
Inductive Caption :=
  | Text (s : string)
  | ProductCaption (p : Product).

(** [InlineKeyboardButton(text, callback_data=...)] *)
Record Button := {
  caption : Caption;
  callback_data : string
}.

(** A line of an order in the orders view: the item and the product of the
    live catalogue that has its name, if any. *)
Definition PricedItem : Type := OrderItem * option Product.

(** The messages of the bot, each with the values its text interpolates. *)
Inductive Message :=
  | MsgAskName                          (* start: "Привет! ... Введи своё Имя и Фамилию" *)
  | MsgNameRejected                     (* "❌ Пожалуйста, введите Имя и Фамилию через пробел" *)
  | MsgRegistered (first_name : string) (* "✅ Отлично, ...! Регистрация завершена!" *)
  | MsgMainMenu (first_name : string)   (* "..., добро пожаловать в магазин 3D печати!" *)
  | MsgUserNotFound                     (* "❌ Ошибка: пользователь не найден" *)
  | MsgCatalogEmpty                     (* "😔 Каталог товаров пуст" *)
  | MsgCatalog (products : list Product)  (* "🛍️ Каталог товаров:" *)
  | MsgProductNotFound                  (* "❌ Товар не найден" *)
  | MsgProductDetails (p : Product)     (* "... Выберите количество:" *)
  | MsgNotSelected                      (* "❌ Ошибка: товар не выбран" *)
  | MsgAdded (p : Product) (q : Z)      (* "✅ ... добавлен в корзину!" *)
  | MsgCartEmpty                        (* "🛒 Ваша корзина пуста" *)
  | MsgCart (cart : list CartItem)      (* "🛒 Ваша корзина:" *)
  | MsgNoOrders                         (* "У вас еще нет завершенных заказов." *)
  | MsgOrders (count : nat) (shown : list (Z * Cell * list PricedItem))
                                        (* "📋 История заказов ... Всего заказов:" *)
  | MsgCheckoutCartEmpty                (* "❌ Корзина пуста" *)
  | MsgOrderPlaced (cart : list CartItem) (* "✅ Заказ оформлен!" *)
  | MsgCheckoutFailed                   (* "❌ Ошибка при оформлении заказа" *)
  | MsgCartCleared                      (* "🗑️ Корзина очищена!" *)
  | MsgCancelled                        (* "Операция отменена" *)
  | MsgError.                           (* error_handler: "❌ Произошла ошибка при обработке запроса." *)

(** What the bot sends: a text and an inline keyboard. *)
Record View := {
  message : Message;
  reply_markup : list (list Button)
}.

Definition button (s data : string) : Button :=
  {| caption := Text s; callback_data := data |}.

(** The result of a handler: the new world, the views sent and the value
    returned to the conversation; [None] when it raises. *)
Definition Outcome : Type := option (World * list View * Next).

(** [show_main_menu] *)
Definition show_main_menu (first_name last_name : string) : View :=
  {| message := MsgMainMenu first_name;
     reply_markup :=
       [[button "📦 Каталог товаров" "catalog"];
        [button "🛒 Корзина" "cart"];
        [button "📋 Мои заказы" "orders"]] |}.

(** [start] *)
Definition start (e : Env) (w : World) (u : Z) : Outcome :=
  match get_user (db w) u with
  | Some (first_name, last_name) =>
      Some (w, [show_main_menu first_name last_name], To MAIN_MENU)
  | None =>
      Some (w, [{| message := MsgAskName; reply_markup := [] |}], To GET_NAME)
  end.

(** [get_user_name] *)
Definition get_user_name (e : Env) (w : World) (u : Z) (text : string)
  : Outcome :=
  let full_name := Py.strip text in
  match Py.words full_name with
  | first_name :: ((_ :: _) as rest) =>
      let last_name := Py.join " " rest in
      let w' := set_db w (add_user (db w) u first_name last_name) in
      Some (w',
            [{| message := MsgRegistered first_name; reply_markup := [] |};
             show_main_menu first_name last_name],
            To MAIN_MENU)
  | _ =>
      Some (w, [{| message := MsgNameRejected; reply_markup := [] |}],
            To GET_NAME)
  end.

(** [show_catalog] *)
Definition show_catalog (e : Env) (w : World) : Outcome :=
  match get_all_products (products_txt e) with
  | [] => Some (w, [{| message := MsgCatalogEmpty; reply_markup := [] |}], Stay)
  | products =>
      let keyboard :=
        map (fun p => [{| caption := ProductCaption p;
                          callback_data := "product_" +:+ pretty (id p) |}])
            products
        ++ [[button "🔙 Назад" "back_to_menu"]] in
      Some (w, [{| message := MsgCatalog products; reply_markup := keyboard |}],
            Stay)
  end.

(** [int(query.data.split('_')[1])] *)
Definition callback_number (data : string) : option Z :=
  s ← Py.split "_" data !! 1%nat; Py.int s.

(** [show_product_details] *)
Definition show_product_details (e : Env) (w : World) (u : Z) (data : string)
  : Outcome :=
  pid ← callback_number data;
  match get_product_by_id (products_txt e) pid with
  | None =>
      Some (w, [{| message := MsgProductNotFound; reply_markup := [] |}], Stay)
  | Some p =>
      let w' := set_user_data w u "selected_product" pid in
      let keyboard :=
        [[button "1" "qty_1"; button "2" "qty_2"; button "3" "qty_3"];
         [button "5" "qty_5"; button "10" "qty_10"];
         [button "🔙 Назад" "catalog"]] in
      Some (w', [{| message := MsgProductDetails p; reply_markup := keyboard |}],
            Stay)
  end.

(** [add_to_cart_handler] *)
Definition add_to_cart_handler (e : Env) (w : World) (u : Z) (data : string)
  : Outcome :=
  q ← callback_number data;
  match session w u !! "selected_product" with
  | None | Some 0 =>
      Some (w, [{| message := MsgNotSelected; reply_markup := [] |}], Stay)
  | Some pid =>
      match get_product_by_id (products_txt e) pid with
      | None =>
          Some (w, [{| message := MsgProductNotFound; reply_markup := [] |}],
                Stay)
      | Some p =>
          d ← add_to_cart_txn (db w) u pid q;
          Some (set_db w d,
                [{| message := MsgAdded p q;
                    reply_markup :=
                      [[button "📦 Продолжить покупки" "catalog"];
                       [button "🛒 Перейти в корзину" "cart"];
                       [button "🔙 В меню" "back_to_menu"]] |}],
                Stay)
      end
  end.

(** [show_cart] *)
Definition show_cart (e : Env) (w : World) (u : Z) : Outcome :=
  match get_cart_items (products_txt e) (db w) u with
  | [] =>
      Some (w, [{| message := MsgCartEmpty;
                   reply_markup := [[button "🔙 Назад" "back_to_menu"]] |}],
            Stay)
  | cart =>
      Some (w, [{| message := MsgCart cart;
                   reply_markup :=
                     [[button "✅ Оформить заказ" "checkout"];
                      [button "🗑️ Очистить корзину" "clear_cart"];
                      [button "🔙 Назад" "back_to_menu"]] |}],
            Stay)
  end.

(** The view sent when [get_user_orders] returns no order. *)
Definition no_orders_view : View :=
  {| message := MsgNoOrders;
     reply_markup :=
       [[button "📦 Перейти в каталог" "catalog"];
        [button "🔙 В меню" "back_to_menu"]] |}.

Definition orders_per_page : Z := 3.

(** [total_pages] as [show_user_orders] computes it from [len(orders)]:
    the assignment ends with the line, and the next line, the lone
    expression [orders_per_page], has no effect. *)
Definition total_pages (count : nat) : Z :=
  Z.of_nat count + orders_per_page - 1.

(** A line of an order: the product of the live catalogue with the name of
    the item, and [None] when [product.price * item['quantity']] raises,
    which it does for a quantity that is a string. *)
Definition price_item (products : list Product) (it : OrderItem)
  : option PricedItem :=
  match List.find (fun p => cell_is (product it) (name p)) products with
  | Some p =>
      match item_quantity it with
      | CStr _ => None
      | _ => Some (it, Some p)
      end
  | None => Some (it, None)
  end.

(** [enumerate(current_orders, i)], each order with its priced lines. *)
Fixpoint number_orders (products : list Product) (i : Z) (l : list Order)
  : option (list (Z * Cell * list PricedItem)) :=
  match l with
  | [] => Some []
  | o :: r =>
      its ← mapM (price_item products) (items o);
      rest ← number_orders products (i + 1) r;
      Some ((i, date o, its) :: rest)
  end.

(** The row of pagination buttons. *)
Definition pagination_buttons (page : Z) (count : nat) : list Button :=
  (if 0 <? page
   then [button "⬅️ Назад" ("orders_page_" +:+ pretty (page - 1))] else [])
  ++ [button (pretty (page + 1) +:+ "/" +:+ pretty (total_pages count))
             "current_page"]
  ++ (if page <? total_pages count - 1
      then [button "Вперед ➡️" ("orders_page_" +:+ pretty (page + 1))]
      else []).

(** [show_user_orders] from the line that reads the page on: the view of
    the non-empty list [orders] at index [page]. *)
Definition orders_view (f : option (list string)) (orders : list Order)
    (page : Z) : option View :=
  let start_idx := page * orders_per_page in
  let end_idx := start_idx + orders_per_page in
  let current_orders := Py.slice orders start_idx end_idx in
  shown ← number_orders (get_all_products f) (start_idx + 1) current_orders;
  let keyboard :=
    match pagination_buttons page (length orders) with
    | [] => []
    | row => [row]
    end
    ++ [[button "📦 Новый заказ" "catalog"];
        [button "🔙 В меню" "back_to_menu"]] in
  Some {| message := MsgOrders (length orders) shown;
          reply_markup := keyboard |}.

(** [context.user_data.get('orders_page', 0)] *)
Definition orders_page (w : World) (u : Z) : Z :=
  default 0 (session w u !! "orders_page").

(** [show_user_orders] *)
Definition show_user_orders (e : Env) (w : World) (u : Z)
    (first_name last_name : string) : Outcome :=
  let full_name := first_name +:+ " " +:+ last_name in
  match get_user_orders (xlsx_loads e) (orders_xlsx w) full_name with
  | [] => Some (w, [no_orders_view], Stay)
  | orders =>
      v ← orders_view (products_txt e) orders (orders_page w u);
      Some (w, [v], Stay)
  end.

(** [checkout] *)
Definition checkout (e : Env) (w : World) (u : Z) : Outcome :=
  match get_user (db w) u with
  | None =>
      Some (w, [{| message := MsgUserNotFound; reply_markup := [] |}], Stay)
  | Some (first_name, last_name) =>
      let full_name := first_name +:+ " " +:+ last_name in
      match get_cart_items (products_txt e) (db w) u with
      | [] =>
          Some (w, [{| message := MsgCheckoutCartEmpty; reply_markup := [] |}],
                Stay)
      | cart =>
          let '(success, ws) :=
            add_order (xlsx_loads e) (xlsx_saves e) (now e) (orders_xlsx w)
                      full_name cart in
          let w1 := set_orders_xlsx w ws in
          if success then
            let w2 := set_db w1 (clear_cart_rows (db w1) u) in
            Some (w2,
                  [{| message := MsgOrderPlaced cart;
                      reply_markup :=
                        [[button "📋 Посмотреть заказы" "orders"];
                         [button "🔙 В меню" "back_to_menu"]] |}],
                  Stay)
          else
            Some (w1,
                  [{| message := MsgCheckoutFailed;
                      reply_markup := [[button "🔙 Назад" "back_to_menu"]] |}],
                  Stay)
      end
  end.

(** [clear_cart] *)
Definition clear_cart (e : Env) (w : World) (u : Z) : Outcome :=
  Some (set_db w (clear_cart_rows (db w) u),
        [{| message := MsgCartCleared;
            reply_markup := [[button "🔙 В меню" "back_to_menu"]] |}],
        Stay).

(** [cancel] *)
Definition cancel (e : Env) (w : World) (u : Z) : Outcome :=
  Some (w, [{| message := MsgCancelled; reply_markup := [] |}], END).

(** [handle_callback]: the chain of tests on [query.data]; data that no
    test accepts is answered and nothing else is done. *)
Definition handle_callback (e : Env) (w : World) (u : Z) (data : string)
  : Outcome :=
  match get_user (db w) u with
  | None =>
      Some (w, [{| message := MsgUserNotFound; reply_markup := [] |}], Stay)
  | Some (first_name, last_name) =>
      if String.eqb data "catalog" then show_catalog e w
      else if String.eqb data "cart" then show_cart e w u
      else if String.eqb data "orders"
           then show_user_orders e w u first_name last_name
      else if String.eqb data "back_to_menu"
           then Some (w, [show_main_menu first_name last_name], Stay)
      else if Py.startswith "product_" data then show_product_details e w u data
      else if Py.startswith "qty_" data then add_to_cart_handler e w u data
      else if String.eqb data "checkout" then checkout e w u
      else if String.eqb data "clear_cart" then clear_cart e w u
      else Some (w, [], Stay)
  end.

(** [error_handler]: the reply sent when a handler raises. *)
Definition error_view : View :=
  {| message := MsgError; reply_markup := [] |}.

(** ** Dispatch, as [main] registers the handlers *)

(** An update from a user: the commands [/start] and [/cancel], a text
    that is not a command, or a pressed inline button with its data. *)
Inductive Event :=
  | CmdStart
  | CmdCancel
  | TextMessage (text : string)
  | Callback (data : string).

Record Update := {
  from_user : Z;
  event : Event
}.

(** [re.match] of the pattern of the second handler,
    [^(catalog|cart|orders|back_to_menu|product_|qty_|checkout|clear_cart)$]:
    one of the words, then the end of the data or its final newline. *)
Definition menu_pattern (data : string) : bool :=
  let tokens := ["catalog"; "cart"; "orders"; "back_to_menu"; "product_";
                 "qty_"; "checkout"; "clear_cart"] in
  existsb (fun t => String.eqb data t || String.eqb data (t +:+ String "010" ""))
          tokens.

(** [re.match] of the pattern of the third handler, [^orders_page_]. *)
Definition page_pattern (data : string) : bool :=
  Py.startswith "orders_page_" data.

(** The handler that takes the update, if any: the conversation first
    (entry point, handlers of its state, fallbacks), then the two
    [CallbackQueryHandler]s with a pattern. *)
Definition route (e : Env) (w : World) (upd : Update) : option Outcome :=
  let u := from_user upd in
  let outside (ev : Event) :=
    match ev with
    | Callback data =>
        if menu_pattern data || page_pattern data
        then Some (handle_callback e w u data) else None
    | _ => None
    end in
  match conversations w !! u, event upd with
  | None, CmdStart => Some (start e w u)
  | Some GET_NAME, TextMessage text => Some (get_user_name e w u text)
  | Some MAIN_MENU, Callback data => Some (handle_callback e w u data)
  | Some _, CmdCancel => Some (cancel e w u)
  | _, ev => outside ev
  end.

(** One update: the world after it and the views sent. An update that no
    handler takes changes nothing; a handler that raises leaves it to
    [error_handler]. *)
Definition process_update (e : Env) (w : World) (upd : Update)
  : World * list View :=
  match route e w upd with
  | None => (w, [])
  | Some None => (w, [error_view])
  | Some (Some (w', views, next)) =>
      (set_conversation w' (from_user upd) next, views)
  end.


(** A sequence of updates, each with the environment it finds. *)
Fixpoint run (w : World) (trace : list (Env * Update)) : World :=
  match trace with
  | [] => w
  | (e, upd) :: rest => run (fst (process_update e w upd)) rest
  end.

End Handlers.

(** ** Notions used to state the properties *)

(** Every row of the sheet has an even number of cells, as the header and
    every row written by [add_order] have. *)
Definition even_sheet (ws : Sheet) : Prop :=
  Forall (fun row : list Cell => Nat.Even (length row)) ws.

(** Every row of [cart_items] has a quantity of at least 1. *)
Definition positive_cart (d : Database) : Prop :=
  Forall (fun r => 1 <= quantity r) (cart_items d).

Section Notions.
Context `{FloatModel}.

(** The rows of a cart listing that are about product [p]. *)
Definition rows_for (p : Z) (cart : list CartItem) : list CartItem :=
  List.filter (fun '(i, _, _, _) => i =? p) cart.

(** A string that a cell accepts: [check_string] returns. *)
Definition storable (s : string) : bool :=
  negb (has_illegal_character (truncate s)).

(** An order that [ws.append] accepts: its date, the name of the customer
    and the name of every item are storable. *)
Definition storable_order (now full_name : string) (cart : list CartItem)
  : bool :=
  storable now && storable full_name
  && forallb (fun '(_, n, _, _) => storable n) cart.

(** A cart with the names of its items as the cells hold them. *)
Definition stored_cart (cart : list CartItem) : list CartItem :=
  map (fun '(i, n, pr, q) => (i, truncate n, pr, q)) cart.

(** What [get_user_orders] reads back from the cells that [add_order]
    wrote for a cart: the pairs whose name and quantity are both true. *)
Definition ledger_items (cart : list CartItem) : list OrderItem :=
  flat_map (fun '(_, n, _, q) =>
              if Py.nonempty n && negb (q =? 0)
              then [{| product := CStr n; item_quantity := CInt q |}]
              else []) cart.

(** The changes of the world that the handlers make for an update of
    user [u]. *)
Inductive effect (w : World) (u : Z) : Event -> World -> Prop :=
  | effect_none ev :
      effect w u ev w
  | effect_register text first_name last_name :
      effect w u (TextMessage text)
             (set_db w (add_user (db w) u first_name last_name))
  | effect_select data pid :
      effect w u (Callback data) (set_user_data w u "selected_product" pid)
  | effect_add data pid q :
      Py.startswith "qty_" data = true ->
      callback_number data = Some q ->
      effect w u (Callback data) (set_db w (add_to_cart (db w) u pid q))
  | effect_clear data :
      effect w u (Callback data) (set_db w (clear_cart_rows (db w) u))
  | effect_order data ws :
      effect w u (Callback data)
             (set_db (set_orders_xlsx w ws) (clear_cart_rows (db w) u)).

(** The quantity selections of a trace all carry a quantity of at least 1,
    as the buttons [qty_1], [qty_2], [qty_3], [qty_5], [qty_10] of the
    quantity menu do. *)
Definition positive_selections (trace : list (Env * Update)) : Prop :=
  Forall (fun '(_, upd) =>
            forall data q,
              event upd = Callback data ->
              Py.startswith "qty_" data = true ->
              callback_number data = Some q -> 1 <= q) trace.

End Notions.

(** ** A small shop, to evaluate the model on *)

Module Sample.

#[local] Existing Instance DecimalFloat.

Definition catalog : option (list string) := Some ["Widget|10.00|desc"].

Definition env : Env :=
  {| products_txt := catalog; now := "2024-05-01 12:00:00";
     xlsx_loads := true; xlsx_saves := true |}.

(** The same moment with [orders.xlsx] unreadable. *)
Definition env_unreadable : Env :=
  {| products_txt := catalog; now := "2024-05-01 12:00:00";
     xlsx_loads := false; xlsx_saves := true |}.

(** The same moment with [orders.xlsx] readable but not writable. *)
Definition env_read_only : Env :=
  {| products_txt := catalog; now := "2024-05-01 12:00:00";
     xlsx_loads := true; xlsx_saves := false |}.

(** The same moment with a [products.txt] whose product name starts with
    the control character U+0007. *)
Definition env_bell : Env :=
  {| products_txt := Some [String "007" "Widget|10.00|desc"];
     now := "2024-05-01 12:00:00";
     xlsx_loads := true; xlsx_saves := true |}.

Definition ann : Z := 7.

Definition empty_db : Database := {| users := ∅; cart_items := [] |}.

(** The bot started on an empty database and a ledger with its header. *)
Definition fresh : World := boot empty_db [headers].

Definition from_ann (ev : Event) : Env * Update :=
  (env, {| from_user := ann; event := ev |}).

(** Ann sends [/start] and her name: she is registered, at the main menu. *)
Definition registered : World :=
  run fresh [from_ann CmdStart; from_ann (TextMessage "Ann Lee")].

(** Ann has opened the widget: it is her selected product. *)
Definition widget_chosen : World :=
  run registered [from_ann (Callback "product_1")].

(** Ann has picked three widgets. *)
Definition with_cart : World :=
  run widget_chosen [from_ann (Callback "qty_3")].

(** A cart listing with five line items. *)
Definition five_items : list CartItem :=
  [(1, "PLA", (15000, 2%nat), 1); (2, "ABS", (18000, 2%nat), 1);
   (3, "PETG", (20000, 2%nat), 2); (4, "Stand", (30000, 2%nat), 1);
   (5, "Case", (25000, 2%nat), 3)].

(** A ledger that holds one order of Ann Lee. *)
Definition one_order : Sheet :=
  [headers; [CStr "2024-04-30 09:00:00"; CStr "Ann Lee"; CStr "Widget"; CInt 3]].

(** Ann, registered, with that ledger. *)
Definition with_order : World := set_orders_xlsx registered one_order.

End Sample.

(** ** Notions used to state further properties *)

(** The rows of [cart_items] of user [u]: [WHERE user_id = ?]. *)
Definition cart_of (d : Database) (u : Z) : list CartRow :=
  List.filter (fun r => user_id r =? u) (cart_items d).

(** No two rows of [cart_items] are about the same user and product. *)
Definition unique_keys (d : Database) : Prop :=
  NoDup (map (fun r => (user_id r, product_id r)) (cart_items d)).

(** Every character of [s] passes the test [P]. *)
Fixpoint all_chars (P : ascii -> bool) (s : string) : bool :=
  match s with
  | EmptyString => true
  | String c r => P c && all_chars P r
  end.

(** A character of a decimal numeral as [str(n)] writes it. *)
Definition numeral_char (c : ascii) : bool :=
  match Py.digit c with
  | Some _ => true
  | None => Ascii.eqb c "-"
  end.

Section Steps.
Context `{FloatModel}.

(** The steps the handlers take for an update of user [u] under the
    environment [e], each with the condition under which the source takes
    it. *)
Inductive change (e : Env) (w : World) (u : Z) : World -> Prop :=
  | change_none :
      change e w u w
  | change_register text first_name second rest :
      Py.words (Py.strip text) = first_name :: second :: rest ->
      change e w u
             (set_db w (add_user (db w) u first_name
                                 (Py.join " " (second :: rest))))
  | change_select pid p :
      get_product_by_id (products_txt e) pid = Some p ->
      change e w u (set_user_data w u "selected_product" pid)
  | change_add pid p q :
      session w u !! "selected_product" = Some pid ->
      get_product_by_id (products_txt e) pid = Some p ->
      change e w u (set_db w (add_to_cart (db w) u pid q))
  | change_clear :
      change e w u (set_db w (clear_cart_rows (db w) u))
  | change_order first_name last_name ws' :
      get_user (db w) u = Some (first_name, last_name) ->
      get_cart_items (products_txt e) (db w) u <> [] ->
      xlsx_loads e && xlsx_saves e = true ->
      ws_append (orders_xlsx w)
                (row_data (now e) (first_name +:+ " " +:+ last_name)
                          (get_cart_items (products_txt e) (db w) u))
      = Some ws' ->
      change e w u
             (set_db (set_orders_xlsx w ws') (clear_cart_rows (db w) u)).

(** The ledger after the orders of a batch, each with its date, the name of
    its customer and its cart, were appended in turn by [add_order] while
    the workbook loads and saves. *)
Definition append_all (ws : Sheet)
    (batch : list (string * string * list CartItem)) : Sheet :=
  fold_left (fun ws '(t, n, cart) => snd (add_order true true t ws n cart))
            batch ws.

(** The orders of a batch that [get_user_orders] returns for [name]: those
    that [ws.append] accepted and whose name, as stored, is [name]. *)
Definition orders_named (name : string)
    (batch : list (string * string * list CartItem)) : list Order :=
  flat_map (fun '(t, n, cart) =>
              if storable_order t n cart && String.eqb (truncate n) name
              then [{| date := CStr (truncate t);
                       items := ledger_items (stored_cart cart) |}]
              else []) batch.

End Steps.

(** * Properties *)

(** ** The model at work *)

Example int_examples :
  Py.int " 12 " = Some 12 /\ Py.int "-5" = Some (-5) /\ Py.int "0" = Some 0
  /\ Py.int "1_000" = Some 1000 /\ Py.int "" = None /\ Py.int "abc" = None
  /\ Py.int "1__0" = None /\ Py.int "5_" = None
  /\ Py.int (String "160" "5") = Some 5
  /\ Py.int (String "028" "5") = None
  /\ Py.strip (String "028" "5") = "5".
Proof. vm_compute. repeat split. Qed.

(** [ws.append] at work: a tab in a name is stored, the control character
    U+0007 is refused and [add_order] returns [False], whether the
    character is in the name of the customer or in the name of an item. *)
Example check_string_examples :
  check_string (String "009" "Ann") = Some (String "009" "Ann")
  /\ check_string (String "007" "Ann") = None
  /\ @add_order DecimalFloat true true "2024-05-01 12:00:00" [headers]
        (String "007" "Ann Lee") [(1, "Widget", (1000, 2%nat), 3)]
     = (false, [headers])
  /\ @add_order DecimalFloat true true "2024-05-01 12:00:00" [headers]
        "Ann Lee" [(1, String "007" "Widget", (1000, 2%nat), 3)]
     = (false, [headers])
  /\ fst (@add_order DecimalFloat true true "2024-05-01 12:00:00" [headers]
             "Ann Lee" [(1, "Widget", (1000, 2%nat), 3)])
     = true.
Proof. split_and!; reflexivity. Qed.

(** [add_to_cart] at the limit of SQLite: the largest quantity is stored,
    the next one raises and leaves the table as it was. *)
Example sqlite_int_examples :
  sqlite_int (2 ^ 63 - 1) = true /\ sqlite_int (2 ^ 63) = false
  /\ sqlite_int (- 2 ^ 63) = true /\ sqlite_int (- 2 ^ 63 - 1) = false
  /\ cart_items (add_to_cart Sample.empty_db 7 1 (2 ^ 63 - 1))
     = [{| user_id := 7; product_id := 1; quantity := 2 ^ 63 - 1 |}]
  /\ add_to_cart_txn Sample.empty_db 7 1 (2 ^ 63) = None
  /\ add_to_cart Sample.empty_db 7 1 (2 ^ 63) = Sample.empty_db.
Proof. split_and!; reflexivity. Qed.

Example split_examples :
  Py.split "_" "qty_5" = ["qty"; "5"]
  /\ Py.split "_" "product_" = ["product"; ""]
  /\ Py.split_max "|" 2 "a|b|c|d" = ["a"; "b"; "c|d"]
  /\ Py.split_max "|" 2 "a|b" = ["a"; "b"]
  /\ Py.words "  Ann   Lee Ray " = ["Ann"; "Lee"; "Ray"]
  /\ Py.join " " ["Lee"; "Ray"] = "Lee Ray"
  /\ Py.strip "  a b  " = "a b".
Proof. vm_compute. repeat split. Qed.

Example slice_examples :
  Py.slice [1; 2; 3; 4; 5] 0 3 = [1; 2; 3]
  /\ Py.slice [1; 2; 3; 4; 5] 3 6 = [4; 5]
  /\ Py.slice [1; 2; 3; 4; 5] 6 9 = []
  /\ Py.slice [1; 2; 3; 4; 5] (-3) 0 = [].
Proof. vm_compute. repeat split. Qed.

(** The scenario of the shop with one product: Ann Lee registers, opens the
    widget, picks 3 and checks out. *)
Example widget_scenario :
  cart_items (db Sample.with_cart)
  = [{| user_id := 7; product_id := 1; quantity := 3 |}]
  /\ @get_cart_items DecimalFloat Sample.catalog (db Sample.with_cart) 7
     = [(1, "Widget", (1000, 2%nat), 3)]
  /\ (let w := @run DecimalFloat Sample.with_cart
                 [Sample.from_ann (Callback "checkout")] in
      cart_items (db w) = []
      /\ get_user_orders true (orders_xlsx w) "Ann Lee"
         = [{| date := CStr "2024-05-01 12:00:00";
               items := [{| product := CStr "Widget";
                            item_quantity := CInt 3 |}] |}]).
Proof. vm_compute. repeat split. Qed.

(** ** The catalogue *)

Section CatalogFacts.
Context `{FloatModel}.

Lemma product_of_line_id idx line p :
  product_of_line idx line = Some p -> id p = idx.
Proof.
  unfold product_of_line.
  destruct (Py.split_max _ _ _) as [|n [|q [|d [|]]]]; try discriminate.
  destruct (float _); simpl; [|discriminate].
  intros [= <-]. reflexivity.
Qed.

(** Whether a line parses does not depend on its number. *)
Lemma product_of_line_renumber idx idx' line :
  is_Some (product_of_line idx line) -> is_Some (product_of_line idx' line).
Proof.
  unfold product_of_line.
  destruct (Py.split_max _ _ _) as [|n [|q [|d [|]]]];
    try (intros [? ?]; discriminate).
  destruct (float _); simpl; [eauto | intros [? ?]; discriminate].
Qed.

(** A record line that raises ends the load: nothing after it is read. *)
Lemma read_products_raise idx raw rest :
  is_record (Py.strip raw) = true ->
  product_of_line idx (Py.strip raw) = None ->
  read_products idx (raw :: rest) = [].
Proof. intros Hg Hp. simpl. rewrite Hg, Hp. reflexivity. Qed.

(** A line that fails the guard is passed over, and still counted. *)
Lemma read_products_skip idx raw rest :
  is_record (Py.strip raw) = false ->
  read_products idx (raw :: rest) = read_products (idx + 1) rest.
Proof. intros Hg. simpl. rewrite Hg. reflexivity. Qed.

Lemma read_products_origin lines : forall idx,
  Forall (fun p => exists raw,
              idx <= id p
              /\ lines !! Z.to_nat (id p - idx) = Some raw
              /\ is_record (Py.strip raw) = true
              /\ product_of_line (id p) (Py.strip raw) = Some p)
         (read_products idx lines).
Proof.
  induction lines as [|raw rest IH]; intros idx; simpl; [constructor|].
  assert (Hshift : Forall (fun p => exists raw0,
              idx <= id p
              /\ (raw :: rest) !! Z.to_nat (id p - idx) = Some raw0
              /\ is_record (Py.strip raw0) = true
              /\ product_of_line (id p) (Py.strip raw0) = Some p)
         (read_products (idx + 1) rest)).
  { eapply Forall_impl; [apply (IH (idx + 1))|].
    intros p (raw0 & Hle & Hl & Hg & Hp). exists raw0.
    split_and!; [lia | | done | done].
    replace (Z.to_nat (id p - idx)) with (S (Z.to_nat (id p - (idx + 1))))
      by lia.
    exact Hl. }
  destruct (is_record (Py.strip raw)) eqn:Hg; [|exact Hshift].
  destruct (product_of_line idx (Py.strip raw)) as [p|] eqn:Hp; [|constructor].
  constructor; [|exact Hshift].
  pose proof (product_of_line_id _ _ _ Hp) as Hid.
  exists raw. rewrite Hid, Z.sub_diag. split_and!; [lia | done | done | done].
Qed.

Lemma read_products_sorted lines : forall idx,
  StronglySorted Z.lt (map id (read_products idx lines)).
Proof.
  induction lines as [|raw rest IH]; intros idx; simpl; [constructor|].
  destruct (is_record (Py.strip raw)); [|apply IH].
  destruct (product_of_line idx (Py.strip raw)) as [p|] eqn:Hp; [|constructor].
  simpl. constructor; [apply IH|].
  rewrite (product_of_line_id _ _ _ Hp).
  apply Forall_map.
  eapply Forall_impl; [apply (read_products_origin rest (idx + 1))|].
  simpl. intros q (? & Hle & _). lia.
Qed.

Lemma read_products_dense lines : forall idx,
  Forall well_formed lines ->
  map id (read_products idx lines) = seqZ idx (Z.of_nat (length lines)).
Proof.
  induction lines as [|raw rest IH]; intros idx Hall; [reflexivity|].
  inversion Hall as [|? ? [Hg Hp] Hrest]; subst.
  apply (product_of_line_renumber 0 idx) in Hp as [p Hp].
  simpl read_products. rewrite Hg, Hp.
  simpl length. rewrite Nat2Z.inj_succ, seqZ_cons by lia.
  simpl. rewrite (product_of_line_id _ _ _ Hp). f_equal.
  rewrite Z.pred_succ. apply IH, Hrest.
Qed.

(** No two products of a load share an id. *)
Lemma read_products_find idx lines p :
  p ∈ read_products idx lines ->
  find_product (read_products idx lines) (id p) = Some p.
Proof.
  unfold find_product.
  pose proof (read_products_sorted lines idx) as Hs.
  induction (read_products idx lines) as [|q l IH]; intros Hin.
  - inversion Hin.
  - simpl in *. inversion Hs as [|? ? Hs' Hlt]; subst.
    destruct (Z.eqb_spec (id q) (id p)) as [Heq|Hne].
    + apply elem_of_cons in Hin as [->|Hin]; [done|].
      rewrite Forall_forall in Hlt.
      assert (id q < id p)
        by (apply Hlt, list_elem_of_In, in_map, list_elem_of_In, Hin).
      lia.
    + apply elem_of_cons in Hin as [->|Hin]; [done|]. apply IH; done.
Qed.

(** C3 (as amended). The id of every loaded product is the 1-based number
    of its line among all the lines of the store, blank and skipped lines
    counted; the ids of a load are strictly increasing; and they are
    exactly 1..k when each of the k lines of the store is well formed. *)
Theorem product_ids_are_line_numbers (lines : list string) :
  let products := get_all_products (Some lines) in
  Forall (fun p => exists raw,
              1 <= id p
              /\ lines !! Z.to_nat (id p - 1) = Some raw
              /\ is_record (Py.strip raw) = true
              /\ product_of_line (id p) (Py.strip raw) = Some p) products
  /\ StronglySorted Z.lt (map id products)
  /\ (Forall well_formed lines ->
      map id products = seqZ 1 (Z.of_nat (length lines))).
Proof.
  simpl. split_and!.
  - apply read_products_origin.
  - apply read_products_sorted.
  - apply read_products_dense.
Qed.

End CatalogFacts.

(** C3, witness. On a store whose two lines are both well formed the ids
    are 1 and 2. *)
Lemma product_ids_are_line_numbers_witness :
  Forall (@well_formed DecimalFloat) ["PLA|150.00|plastic"; "ABS|180.00|strong"]
  /\ map id (@get_all_products DecimalFloat
              (Some ["PLA|150.00|plastic"; "ABS|180.00|strong"])) = [1; 2].
Proof.
  assert (Hwf : Forall (@well_formed DecimalFloat)
                  ["PLA|150.00|plastic"; "ABS|180.00|strong"]).
  { assert (Hline : forall raw,
              (@is_record (Py.strip raw)
               && bool_decide (is_Some (@product_of_line DecimalFloat 0 (Py.strip raw))))
              = true -> @well_formed DecimalFloat raw).
    { intros raw Hb. apply andb_prop in Hb as [Hg Hp]. split; [exact Hg|].
      apply bool_decide_eq_true in Hp. exact Hp. }
    constructor; [apply Hline; vm_compute; reflexivity|].
    constructor; [apply Hline; vm_compute; reflexivity|].
    constructor. }
  split; [exact Hwf|].
  exact (proj2 (proj2 (@product_ids_are_line_numbers DecimalFloat
                         ["PLA|150.00|plastic"; "ABS|180.00|strong"])) Hwf).
Defined.

(** C3, counterexample. A blank first line is counted: the only valid line
    of the store gets the id 2, so the ids of the load are not 1..1. *)
Lemma blank_line_shifts_ids :
  let products := @get_all_products DecimalFloat (Some [""; "A|1|d"]) in
  map id products = [2]
  /\ map id products <> seqZ 1 (Z.of_nat (length products)).
Proof. vm_compute. split; [reflexivity | discriminate]. Qed.

(** C4, at the failing inputs. A line with a single delimiter raises when it
    is unpacked, and a line whose price is not a number raises in [float()]:
    in both cases the load stops, and the valid line that follows, which
    loads on its own, is not returned. *)
Theorem malformed_line_truncates_load :
  (forall M : FloatModel, @get_all_products M (Some ["A|1"; "B|2|d"]) = [])
  /\ @get_all_products DecimalFloat (Some ["A|x|d"; "B|2|d"]) = []
  /\ map name (@get_all_products DecimalFloat (Some ["B|2|d"])) = ["B"]
  /\ map name (@get_all_products DecimalFloat (Some ["A"; "B|2|d"])) = ["B"].
Proof. split_and!; [intros M|..]; reflexivity. Qed.

(** ** The cart *)

Lemma find_none_forall {A} (f : A -> bool) (l : list A) :
  List.find f l = None -> Forall (fun x => f x = false) l.
Proof.
  induction l as [|x l IH]; simpl; [constructor|].
  destruct (f x) eqn:Hx; [discriminate|]. intros Hl. constructor; auto.
Qed.


Lemma cart_key_refl u p q :
  cart_key u p {| user_id := u; product_id := p; quantity := q |} = true.
Proof. unfold cart_key. simpl. rewrite !Z.eqb_refl. reflexivity. Qed.



(** When a binding raises, the database is as it was. *)
Lemma add_to_cart_raised db u p q :
  add_to_cart_txn db u p q = None -> add_to_cart db u p q = db.
Proof. unfold add_to_cart. intros ->. reflexivity. Qed.

Lemma add_to_cart_returned db u p q d :
  add_to_cart_txn db u p q = Some d -> add_to_cart db u p q = d.
Proof. unfold add_to_cart. intros ->. reflexivity. Qed.

(** What a call that returns has done: the row of the product updated, or
    a row inserted. *)
Lemma add_to_cart_txn_some db u p q d :
  add_to_cart_txn db u p q = Some d ->
  sqlite_int u = true /\ sqlite_int p = true
  /\ users d = users db
  /\ match List.find (cart_key u p) (cart_items db) with
     | Some existing =>
         sqlite_int (quantity existing + q) = true
         /\ cart_items d
            = map (update_quantity u p (quantity existing + q)) (cart_items db)
     | None =>
         sqlite_int q = true
         /\ cart_items d
            = cart_items db
              ++ [{| user_id := u; product_id := p; quantity := q |}]
     end.
Proof.
  unfold add_to_cart_txn.
  destruct (sqlite_int u); [|discriminate].
  destruct (sqlite_int p); [|discriminate]. simpl.
  destruct (List.find _ _) as [existing|].
  - destruct (sqlite_int (quantity existing + q)); [|discriminate].
    intros [= <-]. auto.
  - destruct (sqlite_int q); [|discriminate]. intros [= <-]. auto.
Qed.


Lemma update_quantity_other u p n l :
  Forall (fun r => cart_key u p r = false) l ->
  map (update_quantity u p n) l = l.
Proof.
  induction 1 as [|r l Hr _ IH]; simpl; [reflexivity|].
  unfold update_quantity at 1. rewrite Hr, IH. reflexivity.
Qed.


Lemma add_to_cart_positive db u p q :
  positive_cart db -> 1 <= q -> positive_cart (add_to_cart db u p q).
Proof.
  intros Hpos Hq.
  destruct (add_to_cart_txn db u p q) as [d|] eqn:Htxn;
    [|rewrite add_to_cart_raised by done; exact Hpos].
  rewrite (add_to_cart_returned _ _ _ _ _ Htxn).
  apply add_to_cart_txn_some in Htxn as (_ & _ & _ & Hd).
  unfold positive_cart in *.
  destruct (List.find _ _) as [existing|] eqn:Hf; destruct Hd as [_ ->].
  - apply find_some in Hf as [Hin _].
    assert (1 <= quantity existing).
    { rewrite Forall_forall in Hpos. apply Hpos, list_elem_of_In, Hin. }
    apply Forall_map. eapply Forall_impl; [exact Hpos|].
    intros r Hr. simpl in Hr. unfold update_quantity.
    destruct (cart_key u p r); simpl; lia.
  - apply Forall_app. split; [done|]. repeat constructor. simpl. lia.
Qed.

Lemma clear_cart_rows_positive db u :
  positive_cart db -> positive_cart (clear_cart_rows db u).
Proof.
  unfold positive_cart, clear_cart_rows. simpl. intros Hpos.
  rewrite Forall_forall in *. intros r Hr. apply Hpos.
  apply list_elem_of_In in Hr. apply filter_In in Hr as [Hr _].
  apply list_elem_of_In, Hr.
Qed.

Section CartFacts.
Context `{FloatModel}.

(** After [clear_cart] the listing of the user is empty, whatever the
    catalogue. *)
Lemma get_cart_items_cleared f db u :
  get_cart_items f (clear_cart_rows db u) u = [].
Proof.
  unfold get_cart_items, clear_cart_rows. simpl.
  induction (cart_items db) as [|r l IH]; [reflexivity|].
  simpl. destruct (user_id r =? u) eqn:Hu; simpl; [exact IH|].
  rewrite Hu. exact IH.
Qed.


Lemma find_product_id products p product :
  find_product products p = Some product -> id product = p.
Proof.
  unfold find_product. intros Hf. apply find_some in Hf as [_ Hid].
  apply Z.eqb_eq, Hid.
Qed.

Lemma rows_for_app p (a b : list CartItem) :
  rows_for p (a ++ b) = rows_for p a ++ rows_for p b.
Proof. apply List.filter_app. Qed.

(** A cart without a row for [p] has no line for [p] in its listing. *)
Lemma rows_for_absent f db u p :
  List.find (cart_key u p) (cart_items db) = None ->
  rows_for p (get_cart_items f db u) = [].
Proof.
  intros Hf. apply find_none_forall in Hf.
  unfold get_cart_items, rows_for.
  induction Hf as [|r l Hr _ IH]; [reflexivity|].
  simpl. destruct (user_id r =? u) eqn:Hu; [|exact IH].
  simpl. destruct (find_product _ (product_id r)) as [product|] eqn:Hp;
    [|exact IH].
  simpl. rewrite (find_product_id _ _ _ Hp).
  unfold cart_key in Hr. rewrite Hu in Hr. simpl in Hr. rewrite Hr.
  exact IH.
Qed.


End CartFacts.



(** ** The ledger *)

Lemma scan_items_nones k : scan_items (replicate (2 * k) CNone) = Some [].
Proof.
  induction k as [|k IH]; [reflexivity|].
  replace (2 * S k)%nat with (S (S (2 * k))) by lia.
  simpl replicate. simpl scan_items. simpl in IH. rewrite IH. reflexivity.
Qed.

(** On an even number of cells the scan never raises, and [None] cells
    added at the end change nothing. *)
Lemma scan_items_pad n : forall cells k,
  length cells = (2 * n)%nat ->
  scan_items (cells ++ replicate (2 * k) CNone) = scan_items cells
  /\ is_Some (scan_items cells).
Proof.
  induction n as [|n IH]; intros cells k Hlen.
  - destruct cells; [|discriminate]. rewrite app_nil_l, scan_items_nones.
    split; [reflexivity | eexists; reflexivity].
  - destruct cells as [|c [|q rest]]; simpl in Hlen; try lia.
    destruct (IH rest k) as [Heq [its Hits]]; [lia|].
    change ((c :: q :: rest) ++ replicate (2 * k) CNone)
      with (c :: q :: (rest ++ replicate (2 * k) CNone)).
    cbn [scan_items]. fold scan_items. rewrite Heq, Hits.
    split; [reflexivity | eexists; reflexivity].
Qed.

Lemma max_column_ge (ws : Sheet) row :
  In row ws -> (length row <= max_column ws)%nat.
Proof.
  induction ws as [|r ws IH]; simpl; [tauto|].
  intros [->|Hin]; [lia|]. specialize (IH Hin). lia.
Qed.

Lemma max_column_even (ws : Sheet) :
  even_sheet ws -> Nat.Even (max_column ws).
Proof.
  induction 1 as [|r ws Hr _ IH]; simpl; [exists O; reflexivity|].
  destruct (Nat.max_dec (length r) (max_column ws)) as [-> | ->]; assumption.
Qed.

Lemma max_column_snoc (ws : Sheet) row :
  max_column (ws ++ [row]) = Nat.max (max_column ws) (length row).
Proof. induction ws as [|r ws IH]; simpl; [lia|]. rewrite IH. lia. Qed.

Lemma collect_orders_app name a : forall b,
  collect_orders name (a ++ b)
  = os ← collect_orders name a; os' ← collect_orders name b; Some (os ++ os').
Proof.
  induction a as [|row a IH]; intros b.
  - simpl. destruct (collect_orders name b); reflexivity.
  - rewrite <- app_comm_cons. cbn [collect_orders]. fold collect_orders.
    destruct row as [|c0 [|c1 cells]]; [apply IH | reflexivity |].
    destruct (negb (truthy c1)); [apply IH|].
    destruct (cell_is c1 name); [|apply IH].
    destruct (scan_items cells); [|reflexivity]. simpl.
    rewrite IH. destruct (collect_orders name a); [|reflexivity]. simpl.
    destruct (collect_orders name b); reflexivity.
Qed.

(** On rows of even width the loop never raises, and widening every row by
    an even number of [None] cells changes nothing. *)
Lemma collect_orders_widen name d rows :
  Nat.Even d ->
  Forall (fun r : list Cell => Nat.Even (length r)) rows ->
  collect_orders name (map (fun r => r ++ replicate d CNone) rows)
  = collect_orders name rows
  /\ is_Some (collect_orders name rows).
Proof.
  intros [k ->]. induction 1 as [|row rows [n Hn] _ [IH1 IH2]].
  - split; [reflexivity | eexists; reflexivity].
  - cbn [map collect_orders]. fold collect_orders. rewrite IH1.
    destruct row as [|c0 [|c1 cells]].
    + split; [|exact IH2]. rewrite app_nil_l.
      destruct k as [|k]; [reflexivity|].
      replace (2 * S k)%nat with (S (S (2 * k))) by lia. reflexivity.
    + simpl in Hn. lia.
    + change ((c0 :: c1 :: cells) ++ replicate (2 * k) CNone)
        with (c0 :: c1 :: (cells ++ replicate (2 * k) CNone)).
      cbn iota.
      destruct (negb (truthy c1)); [split; [reflexivity | assumption]|].
      destruct (cell_is c1 name); [|split; [reflexivity | assumption]].
      destruct (scan_items_pad (n - 1) cells k) as [-> [its ->]];
        [simpl in Hn; lia|].
      destruct IH2 as [os ->].
      split; [reflexivity | eexists; reflexivity].
Qed.

Section LedgerFacts.
Context `{FloatModel}.

Lemma row_data_even now full_name (cart : list CartItem) :
  Nat.Even (length (row_data now full_name cart)).
Proof.
  unfold row_data. simpl. induction cart as [|[[[i n] pr] q] cart [k Hk]].
  - exists 1%nat. reflexivity.
  - exists (S k). simpl in *. lia.
Qed.

Lemma bind_items (cart : list CartItem) :
  mapM bind_cell (flat_map (fun '(_, n, _, q) => [CStr n; CInt q]) cart)
  = if forallb (fun '(_, n, _, _) => storable n) cart
    then Some (flat_map (fun '(_, n, _, q) => [CStr n; CInt q])
                        (stored_cart cart))
    else None.
Proof.
  induction cart as [|[[[i n] pr] q] cart IH]; [reflexivity|].
  cbn [flat_map forallb stored_cart map app mapM bind_cell].
  fold (stored_cart cart). unfold storable at 1, check_string.
  destruct (has_illegal_character (truncate n)); [reflexivity|].
  cbn [negb andb fmap option_fmap option_map mbind option_bind].
  rewrite IH. destruct (forallb _ _); reflexivity.
Qed.

(** What [ws.append] makes of the row of an order: the row with every
    string cut to the length of a cell, when every string is storable. *)
Lemma ws_append_row_data (ws : Sheet) now full_name (cart : list CartItem) :
  ws_append ws (row_data now full_name cart)
  = if storable_order now full_name cart
    then Some (ws ++ [row_data (truncate now) (truncate full_name)
                               (stored_cart cart)])
    else None.
Proof.
  unfold ws_append, row_data, storable_order.
  cbn [app mapM bind_cell]. unfold storable at 1 2, check_string.
  destruct (has_illegal_character (truncate now)); [reflexivity|].
  destruct (has_illegal_character (truncate full_name)); [reflexivity|].
  cbn [negb andb fmap option_fmap option_map mbind option_bind].
  rewrite bind_items. destruct (forallb _ _); reflexivity.
Qed.

(** [add_order] in one test: it succeeds when the workbook loads, the
    order is storable and the workbook saves. *)
Lemma add_order_spec loads saves now (ws : Sheet) full_name
    (cart : list CartItem) :
  add_order loads saves now ws full_name cart
  = if loads && saves && storable_order now full_name cart
    then (true, ws ++ [row_data (truncate now) (truncate full_name)
                                (stored_cart cart)])
    else (false, ws).
Proof.
  unfold add_order. rewrite ws_append_row_data.
  destruct loads, saves, (storable_order now full_name cart); reflexivity.
Qed.

Lemma add_order_even loads saves now ws full_name (cart : list CartItem) :
  even_sheet ws ->
  even_sheet (snd (add_order loads saves now ws full_name cart)).
Proof.
  intros Hev. rewrite add_order_spec.
  destruct (loads && saves && _); simpl; [|done].
  apply Forall_app. split; [done|]. repeat constructor. apply row_data_even.
Qed.

Lemma first_chars_nonempty n s :
  (0 < n)%N -> Py.nonempty (first_chars n s) = Py.nonempty s.
Proof.
  intros Hn. destruct s as [|c r]; [reflexivity|]. simpl.
  destruct (N.eqb_spec n 0); [lia | reflexivity].
Qed.

(** A string of at most [n] characters is its own first [n] characters. *)
Lemma first_chars_short s : forall n,
  (N.of_nat (String.length s) <= n)%N -> first_chars n s = s.
Proof.
  induction s as [|c r IH]; intros n Hn; [reflexivity|].
  simpl in *. destruct (N.eqb_spec n 0); [lia|].
  rewrite IH by lia. reflexivity.
Qed.

(** The cells written for a cart, read back. *)
Lemma scan_items_cart (cart : list CartItem) k :
  scan_items (flat_map (fun '(_, n, _, q) => [CStr n; CInt q]) cart
              ++ replicate (2 * k) CNone)
  = Some (ledger_items cart).
Proof.
  induction cart as [|[[[i n] pr] q] cart IH].
  - apply scan_items_nones.
  - cbn [flat_map ledger_items]. rewrite <- !app_assoc.
    change ([CStr n; CInt q] ++ ?l) with (CStr n :: CInt q :: l).
    cbn [scan_items]. fold scan_items. rewrite IH. simpl.
    destruct (Py.nonempty n && negb (q =? 0)); reflexivity.
Qed.

(** The rows read after a successful append: the rows read before, widened,
    and the new row. *)
Lemma iter_rows_after_append (ws : Sheet) row :
  ws <> [] ->
  exists d,
    (max_column ws + d)%nat = max_column (ws ++ [row])
    /\ iter_rows_from_2 (ws ++ [row])
       = map (fun r => r ++ replicate d CNone) (iter_rows_from_2 ws)
         ++ [row ++ replicate (max_column (ws ++ [row]) - length row)%nat CNone].
Proof.
  intros Hne. destruct ws as [|h t]; [done|].
  exists (max_column ((h :: t) ++ [row]) - max_column (h :: t))%nat.
  pose proof (max_column_snoc (h :: t) row) as Hmax.
  split; [lia|].
  unfold iter_rows_from_2. cbv zeta.
  change (drop 1 ((h :: t) ++ [row])) with (drop 0 (t ++ [row])).
  change (drop 1 (h :: t)) with (drop 0 t).
  rewrite !drop_0, List.map_app. f_equal.
  rewrite List.map_map. apply map_ext_in. intros r Hr.
  assert (length r <= max_column (h :: t))%nat
    by (apply max_column_ge; right; exact Hr).
  rewrite <- app_assoc, <- replicate_add. do 2 f_equal. lia.
Qed.

Lemma iter_rows_even (ws : Sheet) :
  even_sheet ws ->
  Forall (fun r : list Cell => Nat.Even (length r)) (iter_rows_from_2 ws).
Proof.
  intros Hev. pose proof (max_column_even ws Hev) as Hw.
  unfold iter_rows_from_2. apply Forall_forall. intros r Hr.
  apply list_elem_of_In, in_map_iff in Hr as (r0 & <- & Hr0).
  assert (length r0 <= max_column ws)%nat.
  { apply max_column_ge. apply list_elem_of_In.
    apply list_elem_of_In in Hr0. eapply subseteq_drop, Hr0. }
  rewrite length_app, length_replicate.
  replace (length r0 + (max_column ws - length r0))%nat with (max_column ws)
    by lia.
  exact Hw.
Qed.

(** The row of an order, as wide as an even sheet, read for [name]. *)
Lemma collect_orders_new_row name now full_name (cart : list CartItem) k :
  Py.nonempty full_name = true ->
  collect_orders name [row_data now full_name cart ++ replicate (2 * k) CNone]
  = Some (if String.eqb full_name name
          then [{| date := CStr now; items := ledger_items cart |}]
          else []).
Proof.
  intros Hname. unfold row_data. rewrite <- app_assoc.
  change ([CStr now; CStr full_name] ++ ?l)
    with (CStr now :: CStr full_name :: l).
  cbn [collect_orders truthy cell_is]. rewrite Hname. cbn [negb].
  destruct (String.eqb full_name name); [|reflexivity].
  rewrite scan_items_cart. reflexivity.
Qed.

(** The orders read after a row of an order was appended, on a ledger
    with a header and rows of even width. *)
Lemma get_user_orders_snoc now (ws : Sheet) full_name (cart : list CartItem)
    name :
  ws <> [] -> even_sheet ws -> Py.nonempty full_name = true ->
  get_user_orders true (ws ++ [row_data now full_name cart]) name
  = get_user_orders true ws name
    ++ (if String.eqb full_name name
        then [{| date := CStr now; items := ledger_items cart |}]
        else []).
Proof.
  intros Hne Hev Hname.
  set (row := row_data now full_name cart).
  destruct (iter_rows_after_append ws row Hne) as (k & Hk & Hrows).
  destruct (max_column_even ws Hev) as [a Ha].
  assert (Hev' : even_sheet (ws ++ [row])).
  { apply Forall_app. split; [exact Hev|].
    repeat constructor. apply row_data_even. }
  destruct (max_column_even _ Hev') as [b Hb].
  destruct (row_data_even now full_name cart : Nat.Even (length row))
    as [c Hc].
  pose proof (max_column_snoc ws row) as Hmax.
  assert (Hk2 : Nat.Even k) by (exists (b - a)%nat; lia).
  destruct (collect_orders_widen name k (iter_rows_from_2 ws) Hk2
              (iter_rows_even ws Hev)) as [Hsame [os Hos]].
  unfold get_user_orders.
  rewrite Hrows, collect_orders_app, Hsame, Hos.
  replace (max_column (ws ++ [row]) - length row)%nat with (2 * (b - c))%nat
    by lia.
  unfold row. rewrite collect_orders_new_row by exact Hname.
  reflexivity.
Qed.


End LedgerFacts.



(** ** The handlers *)

Lemma set_conversation_stay w u : set_conversation w u Stay = w.
Proof. destruct w. reflexivity. Qed.

Lemma session_set_db w d u : session (set_db w d) u = session w u.
Proof. reflexivity. Qed.

Lemma session_set_orders_xlsx w ws u :
  session (set_orders_xlsx w ws) u = session w u.
Proof. reflexivity. Qed.

Lemma session_set_conversation w u n u' :
  session (set_conversation w u n) u' = session w u'.
Proof. reflexivity. Qed.

(** Writing one key of [user_data] leaves every other key as it was, for
    every user. *)
Lemma session_set_user_data w u key v u' key' :
  key <> key' ->
  session (set_user_data w u key v) u' !! key' = session w u' !! key'.
Proof.
  intros Hne. unfold session at 1, set_user_data. simpl.
  destruct (decide (u = u')) as [->|Hu].
  - rewrite lookup_insert_eq. simpl. rewrite lookup_insert_ne by done.
    reflexivity.
  - rewrite lookup_insert_ne by done. reflexivity.
Qed.

(** Data that begins with [qty_] is none of the words tested before. *)
Lemma startswith_qty data :
  Py.startswith "qty_" data = true ->
  exists rest, data = "qty_" +:+ rest.
Proof.
  destruct data as [|c1 [|c2 [|c3 [|c4 rest]]]]; cbn [Py.startswith];
    repeat match goal with
           | |- context [Ascii.eqb ?a ?b] =>
               destruct (Ascii.eqb_spec a b) as [<-|]
           end; try discriminate.
  intros _. exists rest. reflexivity.
Qed.

Lemma startswith_orders_page data :
  Py.startswith "orders_page_" data = true ->
  exists rest, data = "orders_" +:+ rest.
Proof.
  destruct data as [|c1 [|c2 [|c3 [|c4 [|c5 [|c6 [|c7 rest]]]]]]];
    cbn [Py.startswith];
    repeat match goal with
           | |- context [Ascii.eqb ?a ?b] =>
               destruct (Ascii.eqb_spec a b) as [<-|]
           end; try discriminate.
  all: intros _; exists rest; reflexivity.
Qed.

Section HandlerFacts.
Context `{FloatModel}.

Lemma handle_callback_qty e w u data :
  Py.startswith "qty_" data = true ->
  handle_callback e w u data
  = match get_user (db w) u with
    | None =>
        Some (w, [{| message := MsgUserNotFound; reply_markup := [] |}], Stay)
    | Some _ => add_to_cart_handler e w u data
    end.
Proof.
  intros Hq. unfold handle_callback. rewrite Hq.
  apply startswith_qty in Hq as [rest ->].
  destruct (get_user (db w) u) as [[first_name last_name]|]; reflexivity.
Qed.

(** Data that begins with [orders_page_] passes every test of
    [handle_callback]: the callback is answered and nothing is done. *)
Lemma handle_callback_ignores_page_tokens e w u data profile :
  Py.startswith "orders_page_" data = true ->
  get_user (db w) u = Some profile ->
  handle_callback e w u data = Some (w, [], Stay).
Proof.
  intros Hp Hu. unfold handle_callback. rewrite Hu. destruct profile.
  apply startswith_orders_page in Hp as [rest ->]. reflexivity.
Qed.




(** C5. For a registered user whose cart listing is not empty, [checkout]
    returns, and the cart of the user is cleared exactly when the append
    to the ledger succeeds: after a success the listing is empty, after a
    failure it is what it was before the attempt (for any catalogue the
    later listing is joined against). *)
Theorem checkout_clears_cart_iff_append_succeeds
    e w u first_name last_name :
  get_user (db w) u = Some (first_name, last_name) ->
  get_cart_items (products_txt e) (db w) u <> [] ->
  let cart := get_cart_items (products_txt e) (db w) u in
  let success :=
    fst (add_order (xlsx_loads e) (xlsx_saves e) (now e) (orders_xlsx w)
                   (first_name +:+ " " +:+ last_name) cart) in
  exists w' views,
    checkout e w u = Some (w', views, Stay)
    /\ forall f,
         get_cart_items f (db w') u
         = if success then [] else get_cart_items f (db w) u.
Proof.
  intros Hu Hcart cart success. unfold checkout. rewrite Hu.
  subst success. fold cart.
  destruct cart as [|item rest] eqn:Hc; [done|].
  destruct (add_order _ _ _ _ _ _) as [[|] ws]; cbn [fst].
  - eexists _, _. split; [reflexivity|]. intros f.
    apply get_cart_items_cleared.
  - eexists _, _. split; [reflexivity|]. intros f. reflexivity.
Qed.

(** Where the orders view comes from: the page is read from [user_data]
    and nothing else of the session is. *)
Lemma show_user_orders_page e w u first_name last_name :
  show_user_orders e w u first_name last_name
  = match get_user_orders (xlsx_loads e) (orders_xlsx w)
                          (first_name +:+ " " +:+ last_name) with
    | [] => Some (w, [no_orders_view], Stay)
    | orders =>
        v ← orders_view (products_txt e) orders
              (default 0 (session w u !! "orders_page"));
        Some (w, [v], Stay)
    end.
Proof. reflexivity. Qed.

(** C9 (as amended). A failure to read the ledger is not conveyed: when
    [orders.xlsx] cannot be loaded, [get_user_orders] returns the empty
    list and the orders handler sends the ordinary view of an empty order
    history. A failure to write the ledger is conveyed: for a registered
    user with a non-empty cart, whenever [add_order] fails, which it does
    exactly when the workbook does not load, or does not save, or a string
    of the order is one that a cell refuses, [checkout] sends the failure
    view and nothing else, and changes nothing. *)
Theorem ledger_read_failure_shows_empty_history
    e w u first_name last_name :
  let cart := get_cart_items (products_txt e) (db w) u in
  let full_name := first_name +:+ " " +:+ last_name in
  let success :=
    fst (add_order (xlsx_loads e) (xlsx_saves e) (now e) (orders_xlsx w)
                   full_name cart) in
  (xlsx_loads e = false ->
   show_user_orders e w u first_name last_name
   = Some (w, [no_orders_view], Stay))
  /\ (success = false <->
      xlsx_loads e = false \/ xlsx_saves e = false
      \/ storable_order (now e) full_name cart = false)
  /\ (get_user (db w) u = Some (first_name, last_name) ->
      cart <> [] ->
      success = false ->
      exists v,
        checkout e w u = Some (w, [v], Stay)
        /\ message v = MsgCheckoutFailed).
Proof.
  intros cart full_name success. split_and!.
  - intros Hl. unfold show_user_orders, get_user_orders. rewrite Hl.
    reflexivity.
  - unfold success. rewrite add_order_spec.
    destruct (xlsx_loads e), (xlsx_saves e),
             (storable_order (now e) full_name cart); cbn; intuition congruence.
  - intros Hu Hcart Hfail. unfold checkout. rewrite Hu.
    fold cart full_name. cbv zeta.
    assert (Hadd : add_order (xlsx_loads e) (xlsx_saves e) (now e)
                             (orders_xlsx w) full_name cart
                   = (false, orders_xlsx w)).
    { unfold success in Hfail. rewrite add_order_spec in Hfail |- *.
      destruct (_ && _ && _); [discriminate Hfail | reflexivity]. }
    destruct cart as [|item rest] eqn:Hc; [done|].
    rewrite Hadd. destruct w. eexists. split; reflexivity.
Qed.

(** ** What an update can change *)

Lemma handle_callback_effect e w u data w' views n :
  handle_callback e w u data = Some (w', views, n) ->
  effect w u (Callback data) w'.
Proof.
  unfold handle_callback.
  destruct (get_user (db w) u) as [[first_name last_name]|] eqn:Hu;
    [|intros [= <- _ _]; constructor].
  repeat match goal with
         | |- context [if ?b then _ else _] => destruct b eqn:?
         end.
  - unfold show_catalog. destruct (get_all_products _);
      intros [= <- _ _]; constructor.
  - unfold show_cart. destruct (get_cart_items _ _ _);
      intros [= <- _ _]; constructor.
  - rewrite show_user_orders_page.
    destruct (get_user_orders _ _ _); [intros [= <- _ _]; constructor|].
    destruct (orders_view _ _ _); [|discriminate].
    intros [= <- _ _]. constructor.
  - intros [= <- _ _]. constructor.
  - unfold show_product_details.
    destruct (callback_number data); [|discriminate]. simpl.
    destruct (get_product_by_id _ _); intros [= <- _ _]; constructor.
  - unfold add_to_cart_handler.
    destruct (callback_number data) as [q|] eqn:Hq; [|discriminate]. simpl.
    destruct (session w u !! "selected_product") as [[|pid|pid]|];
      try (intros [= <- _ _]; constructor);
      (destruct (get_product_by_id _ _); [|intros [= <- _ _]; constructor]);
      (destruct (add_to_cart_txn _ _ _ _) as [d|] eqn:Htxn; [|discriminate]);
      intros [= <- _ _];
      rewrite <- (add_to_cart_returned _ _ _ _ _ Htxn);
      constructor; assumption.
  - unfold checkout. rewrite Hu.
    destruct (get_cart_items _ _ _); [intros [= <- _ _]; constructor|].
    rewrite add_order_spec. destruct (_ && _ && _).
    + intros [= <- _ _]. apply effect_order.
    + intros [= <- _ _]. destruct w. apply effect_none.
  - intros [= <- _ _]. constructor.
  - intros [= <- _ _]. constructor.
Qed.

(** Every update leaves the world it found, up to the state of the
    conversation, changed by one of the effects. *)
Lemma process_update_effect e w upd :
  exists w' n,
    effect w (from_user upd) (event upd) w'
    /\ fst (process_update e w upd) = set_conversation w' (from_user upd) n.
Proof.
  assert (Hnone : exists w' n,
             effect w (from_user upd) (event upd) w'
             /\ w = set_conversation w' (from_user upd) n).
  { exists w, Stay. split; [constructor|]. symmetry.
    apply set_conversation_stay. }
  assert (Hcb : forall data,
             event upd = Callback data ->
             exists w' n,
               effect w (from_user upd) (event upd) w'
               /\ fst (match handle_callback e w (from_user upd) data with
                       | None => (w, [error_view])
                       | Some (w', views, next) =>
                           (set_conversation w' (from_user upd) next, views)
                       end)
                  = set_conversation w' (from_user upd) n).
  { intros data Hev.
    destruct (handle_callback e w (from_user upd) data)
      as [[[w' views] n]|] eqn:Hh; [|exact Hnone].
    exists w', n. split; [|reflexivity]. rewrite Hev.
    eapply handle_callback_effect, Hh. }
  unfold process_update, route.
  destruct (conversations w !! from_user upd) as [[|]|],
           (event upd) as [| |text|data] eqn:Hev;
    try exact Hnone; try (apply Hcb; reflexivity);
    try (destruct (menu_pattern data || page_pattern data);
         [apply Hcb; reflexivity | exact Hnone]).
  - eexists _, _. split; [constructor | reflexivity].
  - unfold get_user_name.
    destruct (Py.words (Py.strip text)) as [|first_name [|second rest]];
      eexists _, _; (split; [|reflexivity]); constructor.
  - eexists _, _. split; [constructor | reflexivity].
  - unfold start. destruct (get_user (db w) (from_user upd)) as [[? ?]|];
      eexists _, _; (split; [|reflexivity]); constructor.
Qed.

(** No effect writes the key ['orders_page']. *)
Lemma effect_keeps_page_unset w u ev w' :
  effect w u ev w' ->
  (forall u', session w u' !! "orders_page" = None) ->
  forall u', session w' u' !! "orders_page" = None.
Proof.
  intros Heff Hw u'. destruct Heff; try apply Hw.
  rewrite session_set_user_data by discriminate. apply Hw.
Qed.

Lemma run_keeps_page_unset trace : forall w,
  (forall u, session w u !! "orders_page" = None) ->
  forall u, session (run w trace) u !! "orders_page" = None.
Proof.
  induction trace as [|[e upd] trace IH]; intros w Hw; [exact Hw|].
  simpl. apply IH. intros u.
  destruct (process_update_effect e w upd) as (w' & n & Heff & ->).
  rewrite session_set_conversation.
  eapply effect_keeps_page_unset; eauto.
Qed.

(** C10. Whatever the database and the ledger the bot starts on, and
    whatever updates it then handles (under any environments), no user's
    [user_data] ever holds the key ['orders_page']: the page read by
    [show_user_orders] is 0, and the orders view it sends is the view of
    page 0. *)
Theorem orders_view_is_always_page_zero d ws trace u :
  let w := run (boot d ws) trace in
  session w u !! "orders_page" = None
  /\ orders_page w u = 0
  /\ forall e first_name last_name,
       show_user_orders e w u first_name last_name
       = match get_user_orders (xlsx_loads e) (orders_xlsx w)
                               (first_name +:+ " " +:+ last_name) with
         | [] => Some (w, [no_orders_view], Stay)
         | orders =>
             v ← orders_view (products_txt e) orders 0; Some (w, [v], Stay)
         end.
Proof.
  intros w.
  assert (Hnone : session w u !! "orders_page" = None).
  { apply run_keeps_page_unset. intros u'. reflexivity. }
  split_and!; [exact Hnone | unfold orders_page; rewrite Hnone; reflexivity |].
  intros e first_name last_name.
  rewrite show_user_orders_page, Hnone. reflexivity.
Qed.

(** An effect whose quantity, if it adds one, is at least 1 keeps every
    quantity of the cart at least 1. *)
Lemma effect_keeps_cart_positive w u ev w' :
  effect w u ev w' ->
  (forall data q,
      ev = Callback data -> Py.startswith "qty_" data = true ->
      callback_number data = Some q -> 1 <= q) ->
  positive_cart (db w) -> positive_cart (db w').
Proof.
  intros Heff Hq Hpos. destruct Heff; simpl; try exact Hpos.
  - apply add_to_cart_positive; [exact Hpos | eauto].
  - apply clear_cart_rows_positive, Hpos.
  - apply clear_cart_rows_positive, Hpos.
Qed.

(** C7 (as amended). The bot does not check the quantity of a selection.
    Every cart row keeps a quantity of at least 1 as long as every
    quantity selection that reaches the bot carries a quantity of at least
    1, as those of the quantity menu (1, 2, 3, 5, 10) do. *)
Theorem cart_quantities_stay_positive trace : forall w,
  positive_cart (db w) ->
  positive_selections trace ->
  positive_cart (db (run w trace)).
Proof.
  induction trace as [|[e upd] trace IH]; intros w Hpos Hsel; [exact Hpos|].
  inversion Hsel as [|? ? Hhead Htail]; subst.
  simpl. apply IH; [|exact Htail].
  destruct (process_update_effect e w upd) as (w' & n & Heff & ->).
  change (db (set_conversation w' (from_user upd) n)) with (db w').
  eapply effect_keeps_cart_positive; eauto.
Qed.

End HandlerFacts.

(** C7, witness. Ann, registered and with the widget selected, picks 2 and
    then 3: every selection is positive, and so is her cart. *)
Lemma cart_quantities_stay_positive_witness :
  positive_cart
    (db (@run DecimalFloat Sample.widget_chosen
           [Sample.from_ann (Callback "qty_2");
            Sample.from_ann (Callback "qty_3")])).
Proof.
  apply (@cart_quantities_stay_positive DecimalFloat).
  - vm_compute. constructor.
  - unfold positive_selections.
    apply List.Forall_cons; [|apply List.Forall_cons; [|apply List.Forall_nil]];
      simpl; intros data q [= <-] _ Hq; vm_compute in Hq; injection Hq as <-;
      lia.
Defined.

(** C7, counterexample. With the widget selected, the selection [qty_0] is
    not rejected: the bot confirms the add and the cart holds a row of
    quantity 0; after [qty_3], the selection [qty_-5] leaves the row at
    -2. *)
Lemma zero_quantity_is_added :
  map message
      (snd (@process_update DecimalFloat Sample.env Sample.widget_chosen
              {| from_user := Sample.ann; event := Callback "qty_0" |}))
  = [MsgAdded (@Build_Product DecimalFloat 1 "Widget" (1000, 2%nat) "desc") 0]
  /\ cart_items
       (db (@run DecimalFloat Sample.widget_chosen
              [Sample.from_ann (Callback "qty_0")]))
     = [{| user_id := 7; product_id := 1; quantity := 0 |}]
  /\ cart_items
       (db (@run DecimalFloat Sample.widget_chosen
              [Sample.from_ann (Callback "qty_3");
               Sample.from_ann (Callback "qty_-5")]))
     = [{| user_id := 7; product_id := 1; quantity := -2 |}].
Proof. split_and!; reflexivity. Qed.

(** C5, witness. Ann checks out her three widgets. While the ledger loads
    and saves, the append succeeds and her cart is empty afterwards; while
    the name of the widget holds a control character, [ws.append] raises,
    the append fails and her cart is what it was. *)
Lemma checkout_clears_cart_iff_append_succeeds_witness :
  (exists w' views,
      @checkout DecimalFloat Sample.env Sample.with_cart 7
      = Some (w', views, Stay)
      /\ forall f, @get_cart_items DecimalFloat f (db w') 7 = [])
  /\ (exists w' views,
        @checkout DecimalFloat Sample.env_bell Sample.with_cart 7
        = Some (w', views, Stay)
        /\ forall f,
             @get_cart_items DecimalFloat f (db w') 7
             = @get_cart_items DecimalFloat f (db Sample.with_cart) 7).
Proof.
  split.
  - destruct (@checkout_clears_cart_iff_append_succeeds DecimalFloat
                Sample.env Sample.with_cart 7 "Ann" "Lee")
      as (w' & views & Hc & Hf).
    + vm_compute. reflexivity.
    + vm_compute. discriminate.
    + exists w', views. split; [exact Hc|]. intros f. rewrite Hf. reflexivity.
  - destruct (@checkout_clears_cart_iff_append_succeeds DecimalFloat
                Sample.env_bell Sample.with_cart 7 "Ann" "Lee")
      as (w' & views & Hc & Hf).
    + vm_compute. reflexivity.
    + vm_compute. discriminate.
    + exists w', views. split; [exact Hc|]. intros f. rewrite Hf. reflexivity.
Defined.


(** C9, witness. Ann, with three widgets in her cart. While [orders.xlsx]
    cannot be loaded, her orders show as an empty history and her checkout
    fails with the failure view; her checkout fails in the same way while
    the workbook loads but cannot be saved, and while the name of the
    widget holds a control character, which [ws.append] refuses. *)
Lemma ledger_read_failure_shows_empty_history_witness :
  @show_user_orders DecimalFloat Sample.env_unreadable Sample.with_cart 7
                    "Ann" "Lee"
  = Some (Sample.with_cart, [@no_orders_view DecimalFloat], Stay)
  /\ Forall (fun e =>
               exists v,
                 @checkout DecimalFloat e Sample.with_cart 7
                 = Some (Sample.with_cart, [v], Stay)
                 /\ message v = MsgCheckoutFailed)
            [Sample.env_unreadable; Sample.env_read_only; Sample.env_bell].
Proof.
  split.
  - apply (@ledger_read_failure_shows_empty_history DecimalFloat
             Sample.env_unreadable Sample.with_cart 7 "Ann" "Lee").
    reflexivity.
  - repeat apply List.Forall_cons; [| | |apply List.Forall_nil].
    + apply (@ledger_read_failure_shows_empty_history DecimalFloat
               Sample.env_unreadable Sample.with_cart 7 "Ann" "Lee");
        [reflexivity | discriminate | reflexivity].
    + apply (@ledger_read_failure_shows_empty_history DecimalFloat
               Sample.env_read_only Sample.with_cart 7 "Ann" "Lee");
        [reflexivity | discriminate | reflexivity].
    + apply (@ledger_read_failure_shows_empty_history DecimalFloat
               Sample.env_bell Sample.with_cart 7 "Ann" "Lee");
        [reflexivity | discriminate | reflexivity].
Defined.

(** C9, counterexample. The ledger holds an order of Ann Lee, but it cannot
    be loaded: the orders handler sends the ordinary view of an empty order
    history, the very view it sends to a customer who has no order in a
    ledger that loads. Nothing in the view conveys the failure. *)
Lemma unreadable_ledger_looks_like_no_orders :
  get_user_orders true (orders_xlsx Sample.with_order) "Ann Lee" <> []
  /\ snd (@process_update DecimalFloat Sample.env_unreadable Sample.with_order
            {| from_user := 7; event := Callback "orders" |})
     = [@no_orders_view DecimalFloat]
  /\ snd (@process_update DecimalFloat Sample.env Sample.registered
            {| from_user := 7; event := Callback "orders" |})
     = [@no_orders_view DecimalFloat].
Proof.
  split_and!; [vm_compute; discriminate | reflexivity | reflexivity].
Qed.

(** ** Pagination of the orders view *)

(** For a non-empty history of [count] orders, [total_pages] is
    [count + 2]; it is never the ceiling of [count / 3]. *)
Lemma total_pages_is_count_plus_two (count : nat) :
  total_pages count = Z.of_nat count + 2
  /\ ((0 < count)%nat ->
      ~ (3 * (total_pages count - 1) < Z.of_nat count <= 3 * total_pages count)).
Proof. unfold total_pages, orders_per_page. lia. Qed.

(** C2, at the failing input. For a history of one order, whose number of
    pages is 1 = ceil(1/3), [show_user_orders] computes [total_pages] = 3:
    on page 0 the keyboard shows the page as 1/3 and offers the button to
    the next page, [orders_page_1]. *)
Theorem one_order_is_shown_as_three_pages :
  @total_pages 1 = 3
  /\ ~ (3 * (@total_pages 1 - 1) < 1 <= 3 * @total_pages 1)
  /\ @pagination_buttons DecimalFloat 0 1
     = [@button DecimalFloat "1/3" "current_page";
        @button DecimalFloat "Вперед ➡️" "orders_page_1"]
  /\ map (fun v => head (reply_markup v))
         (snd (@process_update DecimalFloat Sample.env Sample.with_order
                 {| from_user := 7; event := Callback "orders" |}))
     = [Some [@button DecimalFloat "1/3" "current_page";
              @button DecimalFloat "Вперед ➡️" "orders_page_1"]].
Proof.
  split_and!; [reflexivity | vm_compute; intros [? ?]; discriminate | ..];
    reflexivity.
Qed.

(** * Further properties *)

(** ** The catalogue: lookup and loading *)

Section CatalogMore.
Context `{FloatModel}.

Lemma get_product_by_id_spec f i p :
  get_product_by_id f i = Some p <-> (p ∈ get_all_products f /\ id p = i).
Proof.
  unfold get_product_by_id. split.
  - intros Hf. split; [|eapply find_product_id, Hf].
    unfold find_product in Hf. apply find_some in Hf as [Hin _].
    apply list_elem_of_In, Hin.
  - intros [Hin <-]. destruct f as [lines|]; simpl in *.
    + apply read_products_find, Hin.
    + inversion Hin.
Qed.

(** X1. [get_product_by_id] finds exactly the products of the load: it
    returns [p] for [i] if and only if [p] is among the products of
    [get_all_products] and has the id [i]; in particular every product of
    the load is found again by its id. *)
Theorem get_product_by_id_iff f i p :
  get_product_by_id f i = Some p <-> (p ∈ get_all_products f /\ id p = i).
Proof. apply get_product_by_id_spec. Qed.

Lemma product_of_line_none idx line :
  product_of_line 0 line = None -> product_of_line idx line = None.
Proof.
  intros H0. destruct (product_of_line idx line) eqn:Hi; [|reflexivity].
  destruct (product_of_line_renumber idx 0 line) as [q Hq]; [eauto|].
  congruence.
Qed.

Lemma read_products_truncate bad after before : forall idx,
  is_record (Py.strip bad) = true ->
  product_of_line 0 (Py.strip bad) = None ->
  read_products idx (before ++ bad :: after) = read_products idx before.
Proof.
  induction before as [|raw before IH]; intros idx Hg Hp.
  - simpl. rewrite Hg, (product_of_line_none idx _ Hp). reflexivity.
  - simpl. destruct (is_record (Py.strip raw)).
    + destruct (product_of_line idx (Py.strip raw)); [|reflexivity].
      f_equal. apply IH; assumption.
    + apply IH; assumption.
Qed.

(** X2. A line that passes the guard and then raises (in the unpacking or in
    [float()]) ends the load: whatever precedes and follows it, the result
    is the load of the lines before it; no line after it is read. *)
Theorem raising_line_ends_load before bad after :
  is_record (Py.strip bad) = true ->
  product_of_line 0 (Py.strip bad) = None ->
  get_all_products (Some (before ++ bad :: after))
  = get_all_products (Some before).
Proof. intros Hg Hp. apply read_products_truncate; assumption. Qed.

Lemma read_products_all lines : forall idx,
  Forall (fun raw => is_record (Py.strip raw) = true ->
                     is_Some (product_of_line 0 (Py.strip raw))) lines ->
  Forall2 (fun p raw => product_of_line (id p) (Py.strip raw) = Some p)
          (read_products idx lines)
          (List.filter (fun raw => is_record (Py.strip raw)) lines).
Proof.
  induction lines as [|raw rest IH]; intros idx Hall; [constructor|].
  inversion Hall as [|? ? Hraw Hrest]; subst. simpl.
  destruct (is_record (Py.strip raw)) eqn:Hg; [|apply IH, Hrest].
  destruct (product_of_line_renumber 0 idx _ (Hraw eq_refl)) as [p Hp].
  rewrite Hp. constructor; [|apply IH, Hrest].
  rewrite (product_of_line_id _ _ _ Hp). exact Hp.
Qed.

(** X3. When no line of the store raises, the load degrades gracefully:
    the lines that fail the guard (blank, without a delimiter) are passed
    over, and the products returned are, one for one and in order, the
    lines that pass it. *)
Theorem load_without_raising_line lines :
  Forall (fun raw => is_record (Py.strip raw) = true ->
                     is_Some (product_of_line 0 (Py.strip raw))) lines ->
  Forall2 (fun p raw => product_of_line (id p) (Py.strip raw) = Some p)
          (get_all_products (Some lines))
          (List.filter (fun raw => is_record (Py.strip raw)) lines).
Proof. apply read_products_all. Qed.

(** Every id of a load is at least 1. *)
Lemma get_all_products_id_positive f p :
  p ∈ get_all_products f -> 1 <= id p.
Proof.
  destruct f as [lines|]; simpl; [|intros Hin; inversion Hin].
  intros Hin. pose proof (read_products_origin lines 1) as Hall.
  rewrite Forall_forall in Hall. destruct (Hall p Hin) as (? & Hle & _).
  exact Hle.
Qed.

End CatalogMore.

(** X2, witness. A line with a bad price between two valid lines: only the
    first is loaded. *)
Lemma raising_line_ends_load_witness :
  map name (@get_all_products DecimalFloat
              (Some (["PLA|150.00|a"] ++ "ABS|many|b" :: ["PETG|200.00|c"])))
  = ["PLA"].
Proof.
  rewrite (@raising_line_ends_load DecimalFloat ["PLA|150.00|a"] "ABS|many|b"
             ["PETG|200.00|c"]); reflexivity.
Defined.

(** X3, witness. A blank line and a line without a delimiter between two
    valid lines: both valid lines are loaded, with the ids 1 and 4. *)
Lemma load_without_raising_line_witness :
  Forall2 (fun p raw =>
             @product_of_line DecimalFloat (id p) (Py.strip raw) = Some p)
          (@get_all_products DecimalFloat
             (Some ["PLA|150.00|a"; ""; "no delimiter"; "ABS|180.00|b"]))
          ["PLA|150.00|a"; "ABS|180.00|b"].
Proof.
  apply (@load_without_raising_line DecimalFloat
           ["PLA|150.00|a"; ""; "no delimiter"; "ABS|180.00|b"]).
  repeat (apply List.Forall_cons;
          [intros Hg; first [vm_compute in Hg; discriminate Hg
                            | eexists; reflexivity]|]).
  apply List.Forall_nil.
Defined.

(** ** The cart: isolation, merging, keys *)

Lemma find_split {A} (f : A -> bool) (l : list A) x :
  List.find f l = Some x ->
  exists l1 l2,
    l = l1 ++ x :: l2 /\ Forall (fun y => f y = false) l1 /\ f x = true.
Proof.
  induction l as [|y l IH]; simpl; [discriminate|].
  destruct (f y) eqn:Hy.
  - intros [= ->]. exists [], l. split_and!; [reflexivity | constructor | done].
  - intros Hf. destruct (IH Hf) as (l1 & l2 & -> & Hl1 & Hx).
    exists (y :: l1), l2. split_and!; [reflexivity | constructor; done | done].
Qed.

Lemma forall_find_none {A} (f : A -> bool) (l : list A) :
  Forall (fun y => f y = false) l -> List.find f l = None.
Proof.
  induction 1 as [|y l Hy _ IH]; simpl; [reflexivity|]. rewrite Hy. exact IH.
Qed.

Lemma cart_key_true u p r :
  cart_key u p r = true <-> (user_id r, product_id r) = (u, p).
Proof.
  unfold cart_key. rewrite andb_true_iff, !Z.eqb_eq.
  split; [intros [-> ->]; reflexivity | intros [= -> ->]; done].
Qed.

Lemma update_quantity_key u p n r :
  (user_id (update_quantity u p n r), product_id (update_quantity u p n r))
  = (user_id r, product_id r).
Proof. unfold update_quantity. destruct (cart_key u p r); reflexivity. Qed.

(** A filter that rejects the rows of the key and does not look at the
    quantity sees the same rows before and after [add_to_cart]. *)
Lemma add_to_cart_filter (g : CartRow -> bool) db u p q :
  (forall r, cart_key u p r = true -> g r = false) ->
  (forall r n, g (update_quantity u p n r) = g r) ->
  List.filter g (cart_items (add_to_cart db u p q))
  = List.filter g (cart_items db).
Proof.
  intros Hk Hinv.
  destruct (add_to_cart_txn db u p q) as [d|] eqn:Htxn;
    [|rewrite add_to_cart_raised by done; reflexivity].
  rewrite (add_to_cart_returned _ _ _ _ _ Htxn).
  apply add_to_cart_txn_some in Htxn as (_ & _ & _ & Hd).
  destruct (List.find _ _) as [existing|]; destruct Hd as [_ ->].
  - induction (cart_items db) as [|r l IH]; [reflexivity|].
    simpl. rewrite Hinv, IH. destruct (g r) eqn:Hg; [|reflexivity].
    f_equal. unfold update_quantity.
    destruct (cart_key u p r) eqn:Hr; [|reflexivity].
    rewrite (Hk r Hr) in Hg. discriminate.
  - rewrite List.filter_app. simpl.
    rewrite (Hk _ (cart_key_refl u p q)). apply app_nil_r.
Qed.

Lemma add_to_cart_users db u p q : users (add_to_cart db u p q) = users db.
Proof.
  destruct (add_to_cart_txn db u p q) as [d|] eqn:Htxn;
    [|rewrite add_to_cart_raised by done; reflexivity].
  rewrite (add_to_cart_returned _ _ _ _ _ Htxn).
  apply add_to_cart_txn_some in Htxn as (_ & _ & Husers & _). exact Husers.
Qed.

Lemma add_to_cart_cart_of db u p q u' :
  u' <> u -> cart_of (add_to_cart db u p q) u' = cart_of db u'.
Proof.
  intros Hne. apply add_to_cart_filter.
  - intros r Hr. apply cart_key_true in Hr as [= Hu _].
    apply Z.eqb_neq. congruence.
  - intros r n. unfold update_quantity. destruct (cart_key u p r); reflexivity.
Qed.

Lemma clear_cart_rows_cart_of db u u' :
  u' <> u -> cart_of (clear_cart_rows db u) u' = cart_of db u'.
Proof.
  intros Hne. unfold cart_of, clear_cart_rows. simpl.
  induction (cart_items db) as [|r l IH]; [reflexivity|].
  simpl. destruct (Z.eqb_spec (user_id r) u) as [Hu|Hu]; simpl.
  - rewrite IH. destruct (Z.eqb_spec (user_id r) u'); [congruence | reflexivity].
  - rewrite IH. reflexivity.
Qed.

Lemma add_to_cart_unique db u p q :
  unique_keys db -> unique_keys (add_to_cart db u p q).
Proof.
  intros Hnd.
  destruct (add_to_cart_txn db u p q) as [d|] eqn:Htxn;
    [|rewrite add_to_cart_raised by done; exact Hnd].
  rewrite (add_to_cart_returned _ _ _ _ _ Htxn).
  apply add_to_cart_txn_some in Htxn as (_ & _ & _ & Hd).
  unfold unique_keys in *.
  destruct (List.find _ _) as [existing|] eqn:Hf; destruct Hd as [_ ->].
  - rewrite List.map_map.
    erewrite map_ext; [exact Hnd|]. intros r. apply update_quantity_key.
  - rewrite List.map_app. simpl. apply NoDup_app. split_and!; [exact Hnd | |].
    + intros k Hk Hin. apply list_elem_of_singleton in Hin as ->.
      apply list_elem_of_In, in_map_iff in Hk as (r & Hr & Hin).
      apply find_none_forall in Hf. rewrite Forall_forall in Hf.
      apply list_elem_of_In in Hin. specialize (Hf r Hin).
      apply cart_key_true in Hr. congruence.
    + apply NoDup_singleton.
Qed.

Lemma clear_cart_rows_unique db u :
  unique_keys db -> unique_keys (clear_cart_rows db u).
Proof.
  unfold unique_keys, clear_cart_rows. simpl.
  induction (cart_items db) as [|r l IH]; simpl; [done|].
  intros Hnd. apply NoDup_cons in Hnd as [Hr Hl].
  destruct (negb (user_id r =? u)); simpl; [|auto].
  apply NoDup_cons. split; [|auto].
  intros Hin. apply Hr.
  apply list_elem_of_In, in_map_iff in Hin as (r' & Hk & Hin).
  apply filter_In in Hin as [Hin _].
  apply list_elem_of_In, in_map_iff. eauto.
Qed.

Section CartMore.
Context `{FloatModel}.

(** The listing of a user reads only the rows of that user. *)
Lemma get_cart_items_cart_of f d d' u :
  cart_of d u = cart_of d' u -> get_cart_items f d u = get_cart_items f d' u.
Proof.
  unfold cart_of, get_cart_items. intros Heq. rewrite Heq. reflexivity.
Qed.

Lemma get_cart_items_app f us a b u :
  get_cart_items f {| users := us; cart_items := a ++ b |} u
  = get_cart_items f {| users := us; cart_items := a |} u
    ++ get_cart_items f {| users := us; cart_items := b |} u.
Proof.
  unfold get_cart_items. simpl.
  rewrite List.filter_app, List.map_app, omap_app. reflexivity.
Qed.

(** X4. [add_to_cart] touches the rows of its own user and product only:
    for every other user the listing is what it was, and for the same user
    so are the rows of every other product; the table [users] is
    untouched. *)
Theorem add_to_cart_touches_one_key f db u p q :
  users (add_to_cart db u p q) = users db
  /\ (forall u', u' <> u ->
        get_cart_items f (add_to_cart db u p q) u' = get_cart_items f db u')
  /\ (forall u' p', p' <> p ->
        List.filter (fun r => cart_key u' p' r)
                    (cart_items (add_to_cart db u p q))
        = List.filter (fun r => cart_key u' p' r) (cart_items db)).
Proof.
  split_and!.
  - apply add_to_cart_users.
  - intros u' Hne. apply get_cart_items_cart_of, add_to_cart_cart_of, Hne.
  - intros u' p' Hne. apply add_to_cart_filter.
    + intros r Hr. apply cart_key_true in Hr as [= _ Hp].
      unfold cart_key. rewrite Hp.
      destruct (Z.eqb_spec p p'); [congruence|]. apply andb_false_r.
    + intros r n. unfold update_quantity.
      destruct (cart_key u p r); reflexivity.
Qed.

(** X5. Merging into an existing row. In a cart without duplicate keys
    where the user already holds [q0] of a product that the catalogue
    resolves, with the user, the product and the sum [q0 + q] integers that
    SQLite stores, [add_to_cart] returns, adds no row, and the listing of
    the user shows exactly one line for the product, with the quantity
    [q0 + q]. *)
Theorem add_to_cart_merges_existing f db u p q existing product :
  unique_keys db ->
  List.find (cart_key u p) (cart_items db) = Some existing ->
  find_product (get_all_products f) p = Some product ->
  sqlite_int u = true -> sqlite_int p = true ->
  sqlite_int (quantity existing + q) = true ->
  add_to_cart_txn db u p q = Some (add_to_cart db u p q)
  /\ length (cart_items (add_to_cart db u p q)) = length (cart_items db)
  /\ rows_for p (get_cart_items f (add_to_cart db u p q) u)
     = [(p, name product, price product, quantity existing + q)].
Proof.
  intros Hnd Hf Hp Hu Hpi Hq.
  assert (Hadd : add_to_cart db u p q
                 = {| users := users db;
                      cart_items := map (update_quantity u p (quantity existing + q))
                                        (cart_items db) |}).
  { unfold add_to_cart, add_to_cart_txn. rewrite Hu, Hpi, Hf. simpl.
    rewrite Hq. reflexivity. }
  split.
  { unfold add_to_cart. unfold add_to_cart_txn. rewrite Hu, Hpi, Hf. simpl.
    rewrite Hq. reflexivity. }
  rewrite Hadd. cbn [cart_items].
  split; [apply length_map|].
  destruct (find_split _ _ _ Hf) as (l1 & l2 & Hl & Hl1 & Hx).
  assert (Hl2 : Forall (fun r => cart_key u p r = false) l2).
  { unfold unique_keys in Hnd. rewrite Hl, List.map_app in Hnd. simpl in Hnd.
    apply NoDup_app in Hnd as (_ & _ & Hnd).
    apply NoDup_cons in Hnd as [Hnot _].
    apply Forall_forall. intros r Hr.
    destruct (cart_key u p r) eqn:Hk; [|reflexivity].
    exfalso. apply Hnot.
    apply cart_key_true in Hk. pose proof (proj1 (cart_key_true _ _ _) Hx) as Hx'.
    rewrite Hx', <- Hk.
    apply list_elem_of_In, (in_map (fun r => (user_id r, product_id r))),
      list_elem_of_In, Hr. }
  assert (Hdb : get_cart_items f
                  {| users := users db;
                     cart_items := map (update_quantity u p (quantity existing + q))
                                       (cart_items db) |} u
                = get_cart_items f {| users := users db; cart_items := l1 |} u
                  ++ [(p, name product, price product, quantity existing + q)]
                  ++ get_cart_items f {| users := users db; cart_items := l2 |} u).
  { rewrite Hl, List.map_app. simpl.
    rewrite !update_quantity_other by assumption.
    rewrite get_cart_items_app.
    change (?x :: l2) with ([x] ++ l2). rewrite get_cart_items_app.
    do 2 f_equal. unfold get_cart_items, update_quantity. simpl.
    rewrite Hx. simpl. apply cart_key_true in Hx as [= Hxu Hpid].
    rewrite Hxu, Z.eqb_refl, Hpid. simpl. rewrite Hp.
    rewrite (find_product_id _ _ _ Hp). reflexivity. }
  rewrite Hdb, rows_for_app.
  rewrite (rows_for_app p [(p, name product, price product,
                            quantity existing + q)]).
  rewrite (rows_for_absent f {| users := users db; cart_items := l1 |} u p
             (forall_find_none _ _ Hl1)).
  rewrite (rows_for_absent f {| users := users db; cart_items := l2 |} u p
             (forall_find_none _ _ Hl2)).
  unfold rows_for. simpl. rewrite Z.eqb_refl. reflexivity.
Qed.

Lemma listed_items_resolve_rows f us l u :
  Forall (fun '(i, n, pr, q) =>
            exists product,
              get_product_by_id f i = Some product
              /\ id product = i /\ name product = n /\ price product = pr
              /\ In {| user_id := u; product_id := i; quantity := q |} l)
         (get_cart_items f {| users := us; cart_items := l |} u)
  /\ (length (get_cart_items f {| users := us; cart_items := l |} u)
      <= length (cart_of {| users := us; cart_items := l |} u))%nat.
Proof.
  unfold get_cart_items, cart_of, get_product_by_id. simpl.
  induction l as [|r l [IH1 IH2]]; [split; [constructor | done]|].
  assert (Hweak : Forall (fun '(i, n, pr, q) =>
            exists product,
              find_product (get_all_products f) i = Some product
              /\ id product = i /\ name product = n /\ price product = pr
              /\ In {| user_id := u; product_id := i; quantity := q |} (r :: l))
         (omap (fun '(pid, q) =>
                  match find_product (get_all_products f) pid with
                  | Some product =>
                      Some (id product, name product, price product, q)
                  | None => None
                  end)
               (map (fun r => (product_id r, quantity r))
                    (List.filter (fun r => user_id r =? u) l)))).
  { eapply Forall_impl; [exact IH1|].
    intros [[[i n] pr] q] (product' & ? & ? & ? & ? & Hin).
    exists product'. split_and!; try done. right. exact Hin. }
  simpl. destruct (Z.eqb_spec (user_id r) u) as [Hu|Hu];
    [|split; [exact Hweak | exact IH2]].
  simpl.
  destruct (find_product _ (product_id r)) as [product|] eqn:Hp; simpl;
    [|split; [exact Hweak | apply Nat.le_le_succ_r, IH2]].
  split; [|apply le_n_S, IH2]. constructor; [|exact Hweak].
  exists product. pose proof (find_product_id _ _ _ Hp) as Hid.
  rewrite Hid. split_and!; try done.
  left. destruct r; simpl in *. congruence.
Qed.

(** X6. Every line of a cart listing is backed by a row of the user and by
    the product of the live catalogue with that id: the line carries the
    id, the name and the price of that product and the quantity of the row.
    Rows whose product the catalogue no longer holds give no line. *)
Theorem listed_items_resolve f db u :
  Forall (fun '(i, n, pr, q) =>
            exists product,
              get_product_by_id f i = Some product
              /\ id product = i /\ name product = n /\ price product = pr
              /\ In {| user_id := u; product_id := i; quantity := q |}
                    (cart_items db))
         (get_cart_items f db u)
  /\ (length (get_cart_items f db u) <= length (cart_of db u))%nat.
Proof. destruct db as [us l]. apply listed_items_resolve_rows. Qed.

(** X7. [clear_cart] empties the listing of its user and leaves the listing
    of every other user, and the table [users], as they were. *)
Theorem clear_cart_rows_only_own f db u :
  get_cart_items f (clear_cart_rows db u) u = []
  /\ users (clear_cart_rows db u) = users db
  /\ forall u', u' <> u ->
       get_cart_items f (clear_cart_rows db u) u' = get_cart_items f db u'.
Proof.
  split_and!; [apply get_cart_items_cleared | reflexivity |].
  intros u' Hne. apply get_cart_items_cart_of, clear_cart_rows_cart_of, Hne.
Qed.

End CartMore.

(** X5, witness. Ann holds 3 widgets and adds 2 more. *)
Lemma add_to_cart_merges_existing_witness :
  length (cart_items (add_to_cart (db Sample.with_cart) 7 1 2)) = 1%nat
  /\ @rows_for DecimalFloat 1
       (@get_cart_items DecimalFloat Sample.catalog
          (add_to_cart (db Sample.with_cart) 7 1 2) 7)
     = [(1, "Widget", (1000, 2%nat), 5)].
Proof.
  refine (proj2 (@add_to_cart_merges_existing DecimalFloat Sample.catalog
                   (db Sample.with_cart) 7 1 2
                   {| user_id := 7; product_id := 1; quantity := 3 |}
                   (@Build_Product DecimalFloat 1 "Widget" (1000, 2%nat) "desc")
                   _ _ _ _ _ _)).
  - vm_compute. repeat constructor. intros Hin. inversion Hin.
  - vm_compute. reflexivity.
  - reflexivity.
  - reflexivity.
  - reflexivity.
  - reflexivity.
Defined.

(** X4, witness. Bob (8) adds a widget: Ann's listing is untouched. *)
Lemma add_to_cart_touches_one_key_witness :
  @get_cart_items DecimalFloat Sample.catalog
    (add_to_cart (db Sample.with_cart) 8 1 1) 7
  = @get_cart_items DecimalFloat Sample.catalog (db Sample.with_cart) 7.
Proof.
  apply (proj1 (proj2 (@add_to_cart_touches_one_key DecimalFloat
                         Sample.catalog (db Sample.with_cart) 8 1 1))).
  lia.
Defined.

(** X7, witness. Bob (8) clears his cart: Ann's listing is untouched. *)
Lemma clear_cart_rows_only_own_witness :
  @get_cart_items DecimalFloat Sample.catalog
    (clear_cart_rows (db Sample.with_cart) 8) 7
  = @get_cart_items DecimalFloat Sample.catalog (db Sample.with_cart) 7.
Proof.
  apply (proj2 (proj2 (@clear_cart_rows_only_own DecimalFloat
                         Sample.catalog (db Sample.with_cart) 8))).
  lia.
Defined.

(** ** The steps of the bot *)

Section StepFacts.
Context `{FloatModel}.

Lemma handle_callback_change e w u data w' views n :
  handle_callback e w u data = Some (w', views, n) ->
  change e w u w' /\ n = Stay.
Proof.
  unfold handle_callback.
  destruct (get_user (db w) u) as [[first_name last_name]|] eqn:Hu;
    [|intros [= <- _ <-]; (split; [apply change_none | reflexivity])].
  repeat match goal with
         | |- context [if ?b then _ else _] => destruct b eqn:?
         end.
  - unfold show_catalog. destruct (get_all_products _);
      intros [= <- _ <-]; (split; [apply change_none | reflexivity]).
  - unfold show_cart. destruct (get_cart_items _ _ _);
      intros [= <- _ <-]; (split; [apply change_none | reflexivity]).
  - rewrite show_user_orders_page.
    destruct (get_user_orders _ _ _);
      [intros [= <- _ <-]; (split; [apply change_none | reflexivity])|].
    destruct (orders_view _ _ _); [|discriminate].
    intros [= <- _ <-]. (split; [apply change_none | reflexivity]).
  - intros [= <- _ <-]. (split; [apply change_none | reflexivity]).
  - unfold show_product_details.
    destruct (callback_number data) as [pid|]; [|discriminate]. simpl.
    destruct (get_product_by_id _ _) eqn:Hp; intros [= <- _ <-];
      (split; [|reflexivity]); [eapply change_select, Hp | apply change_none].
  - unfold add_to_cart_handler.
    destruct (callback_number data) as [q|]; [|discriminate]. simpl.
    destruct (session w u !! "selected_product") as [[|pid|pid]|] eqn:Hs;
      try (intros [= <- _ <-]; (split; [apply change_none | reflexivity]));
      (destruct (get_product_by_id _ _) eqn:Hp;
       [|intros [= <- _ <-]; (split; [apply change_none | reflexivity])]);
      (destruct (add_to_cart_txn _ _ _ _) as [d|] eqn:Htxn; [|discriminate]);
      intros [= <- _ <-]; (split; [|reflexivity]);
      rewrite <- (add_to_cart_returned _ _ _ _ _ Htxn);
      eapply change_add; eassumption.
  - unfold checkout. rewrite Hu.
    destruct (get_cart_items _ _ _) as [|item cart] eqn:Hc;
      [intros [= <- _ <-]; (split; [apply change_none | reflexivity])|].
    rewrite <- Hc. unfold add_order.
    destruct (xlsx_loads e) eqn:Hl;
      [|intros [= <- _ <-]; split; [|reflexivity]; destruct w;
        apply change_none].
    destruct (ws_append _ _) as [ws'|] eqn:Happ;
      [|intros [= <- _ <-]; split; [|reflexivity]; destruct w;
        apply change_none].
    destruct (xlsx_saves e) eqn:Hs;
      [|intros [= <- _ <-]; split; [|reflexivity]; destruct w;
        apply change_none].
    intros [= <- _ <-]. split; [|reflexivity].
    eapply change_order;
      [exact Hu | rewrite Hc; discriminate | rewrite Hl, Hs; reflexivity
      | exact Happ].
  - intros [= <- _ <-]. split; [apply change_clear | reflexivity].
  - intros [= <- _ <-]. split; [apply change_none | reflexivity].
Qed.

(** Every update leaves the world it found, up to the state of the
    conversation of its user, changed by one step. *)
Lemma process_update_change e w upd :
  exists w' n,
    change e w (from_user upd) w'
    /\ fst (process_update e w upd) = set_conversation w' (from_user upd) n.
Proof.
  assert (Hnone : exists w' n,
             change e w (from_user upd) w'
             /\ w = set_conversation w' (from_user upd) n).
  { exists w, Stay. split; [constructor|]. symmetry.
    apply set_conversation_stay. }
  assert (Hcb : forall data,
             exists w' n,
               change e w (from_user upd) w'
               /\ fst (match handle_callback e w (from_user upd) data with
                       | None => (w, [error_view])
                       | Some (w', views, next) =>
                           (set_conversation w' (from_user upd) next, views)
                       end)
                  = set_conversation w' (from_user upd) n).
  { intros data.
    destruct (handle_callback e w (from_user upd) data)
      as [[[w' views] n]|] eqn:Hh; [|exact Hnone].
    exists w', n. split; [|reflexivity].
    eapply handle_callback_change, Hh. }
  unfold process_update, route.
  destruct (conversations w !! from_user upd) as [[|]|],
           (event upd) as [| |text|data];
    try exact Hnone; try apply Hcb;
    try (destruct (menu_pattern data || page_pattern data);
         [apply Hcb | exact Hnone]).
  - eexists _, _. split; [constructor | reflexivity].
  - unfold get_user_name.
    destruct (Py.words (Py.strip text)) as [|first_name [|second rest]] eqn:Hw;
      eexists _, _; (split; [|reflexivity]);
      try constructor. eapply change_register, Hw.
  - eexists _, _. split; [constructor | reflexivity].
  - unfold start. destruct (get_user (db w) (from_user upd)) as [[? ?]|];
      eexists _, _; (split; [|reflexivity]); constructor.
Qed.

(** A property of worlds that every step keeps, whatever the conversation
    becomes, holds after every sequence of updates. *)
Lemma run_invariant (P : World -> Prop) :
  (forall e w u w' n, P w -> change e w u w' -> P (set_conversation w' u n)) ->
  forall trace w, P w -> P (run w trace).
Proof.
  intros Hstep trace. induction trace as [|[e upd] trace IH]; intros w Hw;
    [exact Hw|].
  simpl. apply IH.
  destruct (process_update_change e w upd) as (w' & n & Hch & ->).
  eapply Hstep; eauto.
Qed.

End StepFacts.

(** ** Invariants of every run *)

Lemma session_set_user_data_other w u key v u' :
  u' <> u -> session (set_user_data w u key v) u' = session w u'.
Proof.
  intros Hne. unfold session, set_user_data. simpl.
  rewrite lookup_insert_ne by done. reflexivity.
Qed.

Lemma session_set_user_data_same w u key v :
  session (set_user_data w u key v) u = <[key := v]> (session w u).
Proof.
  unfold session at 1, set_user_data. simpl.
  rewrite lookup_insert_eq. reflexivity.
Qed.

Section RunFacts.
Context `{FloatModel}.

(** X8. The table [cart_items] never comes to hold two rows for the same
    user and product: a database without such duplicates has none after any
    sequence of updates. *)
Theorem carts_never_hold_duplicate_keys trace w :
  unique_keys (db w) -> unique_keys (db (run w trace)).
Proof.
  revert w. apply (run_invariant (fun w => unique_keys (db w))).
  intros e w u w' n Hw Hch.
  change (db (set_conversation w' u n)) with (db w').
  destruct Hch; simpl; try exact Hw.
  - apply add_to_cart_unique, Hw.
  - apply clear_cart_rows_unique, Hw.
  - apply clear_cart_rows_unique, Hw.
Qed.

Lemma run_extends_ledger ws0 trace : forall w,
  (exists rows,
      orders_xlsx w = ws0 ++ rows
      /\ Forall (fun row =>
                  exists t full_name (cart : list CartItem),
                    cart <> [] /\ row = row_data t full_name cart) rows) ->
  exists rows,
    orders_xlsx (run w trace) = ws0 ++ rows
    /\ Forall (fun row =>
                exists t full_name (cart : list CartItem),
                  cart <> [] /\ row = row_data t full_name cart) rows.
Proof.
  apply (run_invariant
           (fun w => exists rows,
                orders_xlsx w = ws0 ++ rows
                /\ Forall (fun row =>
                            exists t full_name (cart : list CartItem),
                              cart <> [] /\ row = row_data t full_name cart)
                          rows)).
  intros e w1 u w' n (rows & Hrows & Hall) Hch.
  change (orders_xlsx (set_conversation w' u n)) with (orders_xlsx w').
  destruct Hch as [| | | | |first_name last_name ws' Hu Hcart Hok Happ];
    simpl; try (exists rows; split; assumption).
  rewrite ws_append_row_data in Happ.
  destruct (storable_order _ _ _); [|discriminate]. injection Happ as <-.
  eexists (rows ++ [_]). rewrite Hrows, app_assoc. split; [reflexivity|].
  apply Forall_app. split; [exact Hall|]. constructor; [|constructor].
  eexists _, _, _. split; [|reflexivity].
  unfold stored_cart. intros Hnil. apply map_eq_nil in Hnil. done.
Qed.

(** X9. The ledger is append-only: after any sequence of updates the
    worksheet is the worksheet the run started on followed by new rows, and
    each new row is the [row_data] of a non-empty cart; nothing is ever
    removed from it or rewritten in it. *)
Theorem ledger_is_append_only trace w :
  exists rows,
    orders_xlsx (run w trace) = orders_xlsx w ++ rows
    /\ Forall (fun row =>
                exists t full_name (cart : list CartItem),
                  cart <> [] /\ row = row_data t full_name cart) rows.
Proof.
  apply run_extends_ledger. exists [].
  split; [symmetry; apply app_nil_r | constructor].
Qed.

(** X10. No update removes a user: whoever is registered stays registered
    after any sequence of updates. *)
Theorem users_are_never_removed trace w u :
  is_Some (get_user (db w) u) -> is_Some (get_user (db (run w trace)) u).
Proof.
  revert w. apply (run_invariant (fun w => is_Some (get_user (db w) u))).
  intros e w u0 w' n Hw Hch.
  change (db (set_conversation w' u0 n)) with (db w').
  destruct Hch; simpl; try exact Hw.
  - unfold get_user, add_user. cbn [users].
    destruct (decide (u0 = u)) as [->|Hne].
    + rewrite lookup_insert_eq. eauto.
    + rewrite lookup_insert_ne by done. exact Hw.
  - unfold get_user. rewrite add_to_cart_users. exact Hw.
Qed.

(** X11. The selected product of a session is always the id of a product
    that a catalogue held when it was selected, hence at least 1: from the
    start of the bot, no [user_data] ever holds a [selected_product] below
    1, so [add_to_cart_handler] answers that no product is selected only
    when the key is missing. *)
Theorem selected_product_is_positive d ws trace u pid :
  session (run (boot d ws) trace) u !! "selected_product" = Some pid ->
  1 <= pid.
Proof.
  revert u pid.
  apply (run_invariant
           (fun w => forall u pid,
                session w u !! "selected_product" = Some pid -> 1 <= pid)).
  - intros e w u0 w' n Hw Hch u pid.
    rewrite session_set_conversation.
    destruct Hch as [| | pid0 p Hp | | |]; try apply Hw.
    destruct (decide (u = u0)) as [->|Hne].
    + rewrite session_set_user_data_same, lookup_insert_eq. intros [= <-].
      apply get_product_by_id_spec in Hp as [Hin <-].
      eapply get_all_products_id_positive, Hin.
    + rewrite session_set_user_data_other by done. apply Hw.
  - intros u pid. unfold session, boot. simpl.
    rewrite lookup_empty. simpl. rewrite lookup_empty. discriminate.
Qed.

(** X12. An update of one user changes nothing of any other user: the rows
    of the other user's cart, the profile, the [user_data] and the state of
    the conversation of the other user are what they were. *)
Theorem update_leaves_other_users_alone e w upd u' :
  u' <> from_user upd ->
  let w' := fst (process_update e w upd) in
  cart_of (db w') u' = cart_of (db w) u'
  /\ get_user (db w') u' = get_user (db w) u'
  /\ session w' u' = session w u'
  /\ conversations w' !! u' = conversations w !! u'.
Proof.
  intros Hne w'. subst w'.
  destruct (process_update_change e w upd) as (w1 & n & Hch & ->).
  assert (Hconv : conversations (set_conversation w1 (from_user upd) n) !! u'
                  = conversations w1 !! u').
  { destruct n; simpl; [reflexivity | |].
    - rewrite lookup_insert_ne by done. reflexivity.
    - rewrite lookup_delete_ne by done. reflexivity. }
  rewrite Hconv, session_set_conversation.
  change (db (set_conversation w1 (from_user upd) n)) with (db w1).
  destruct Hch; simpl; split_and!; try reflexivity.
  - unfold get_user, add_user. simpl. rewrite lookup_insert_ne by done.
    reflexivity.
  - apply session_set_user_data_other, Hne.
  - apply add_to_cart_cart_of, Hne.
  - unfold get_user. rewrite add_to_cart_users. reflexivity.
  - apply clear_cart_rows_cart_of, Hne.
  - apply clear_cart_rows_cart_of, Hne.
Qed.

End RunFacts.

(** X8, witness. From the empty database, after Ann picked 3 and then 2
    widgets, there is one row. *)
Lemma carts_never_hold_duplicate_keys_witness :
  unique_keys
    (db (@run DecimalFloat Sample.fresh
           [Sample.from_ann CmdStart; Sample.from_ann (TextMessage "Ann Lee");
            Sample.from_ann (Callback "product_1");
            Sample.from_ann (Callback "qty_3");
            Sample.from_ann (Callback "qty_2")])).
Proof.
  apply (@carts_never_hold_duplicate_keys DecimalFloat).
  vm_compute. constructor.
Defined.

(** X10, witness. Ann stays registered through a checkout and a cancel. *)
Lemma users_are_never_removed_witness :
  is_Some (get_user
             (db (@run DecimalFloat Sample.with_cart
                    [Sample.from_ann (Callback "checkout");
                     Sample.from_ann CmdCancel])) 7).
Proof.
  apply (@users_are_never_removed DecimalFloat).
  exists ("Ann", "Lee"). vm_compute. reflexivity.
Defined.

(** X11, witness. After Ann opened the widget her selected product is 1. *)
Lemma selected_product_is_positive_witness : 1 <= 1.
Proof.
  apply (@selected_product_is_positive DecimalFloat Sample.empty_db [headers]
           [Sample.from_ann CmdStart; Sample.from_ann (TextMessage "Ann Lee");
            Sample.from_ann (Callback "product_1")] 7 1).
  vm_compute. reflexivity.
Defined.

(** X12, witness. Bob (8) sends [/start]: nothing of Ann changes. *)
Lemma update_leaves_other_users_alone_witness :
  cart_of (db (fst (@process_update DecimalFloat Sample.env Sample.with_cart
                      {| from_user := 8; event := CmdStart |}))) 7
  = cart_of (db Sample.with_cart) 7.
Proof.
  apply (@update_leaves_other_users_alone DecimalFloat Sample.env
           Sample.with_cart {| from_user := 8; event := CmdStart |} 7).
  simpl. lia.
Defined.

(** ** Numbers in callback data *)

Lemma all_chars_impl (P Q : ascii -> bool) s :
  (forall c, P c = true -> Q c = true) ->
  all_chars P s = true -> all_chars Q s = true.
Proof.
  intros HPQ. induction s as [|c r IH]; simpl; [done|].
  rewrite !andb_true_iff. intros [Hc Hr]. auto.
Qed.

Lemma numeral_char_plain c :
  numeral_char c = true ->
  Py.isspace c = false /\ Ascii.eqb "_" c = false.
Proof.
  destruct c as [[] [] [] [] [] [] [] []]; vm_compute;
    first [discriminate | split; reflexivity].
Qed.

(** What [int()] skips, [strip()] removes. *)
Lemma int_space_isspace c : Py.int_space c = true -> Py.isspace c = true.
Proof.
  destruct c as [[] [] [] [] [] [] [] []]; vm_compute;
    first [discriminate | reflexivity].
Qed.

(** Text without whitespace has nothing for [int()] to skip. *)
Lemma skip_id s :
  all_chars (fun c => negb (Py.isspace c)) s = true ->
  Py.rskip Py.int_space (Py.lskip Py.int_space s) = s.
Proof.
  intros Hs.
  assert (Hs' : all_chars (fun c => negb (Py.int_space c)) s = true).
  { eapply all_chars_impl; [|exact Hs]. intros c Hc. simpl in Hc.
    destruct (Py.int_space c) eqn:Hi; [|reflexivity].
    rewrite (int_space_isspace c Hi) in Hc. discriminate. }
  clear Hs. assert (Hl : Py.lskip Py.int_space s = s).
  { destruct s as [|c r]; simpl in *; [done|].
    apply andb_true_iff in Hs' as [Hc _]. apply negb_true_iff in Hc.
    rewrite Hc. reflexivity. }
  rewrite Hl. clear Hl. induction s as [|c r IH]; simpl in *; [done|].
  apply andb_true_iff in Hs' as [Hc Hr]. apply negb_true_iff in Hc.
  rewrite (IH Hr), Hc. destruct r; reflexivity.
Qed.

(** Text without the separator is the only piece of its [split]. *)
Lemma split_id c s :
  all_chars (fun d => negb (Ascii.eqb c d)) s = true -> Py.split c s = [s].
Proof.
  induction s as [|d r IH]; simpl; [done|].
  rewrite andb_true_iff, negb_true_iff. intros [-> Hr].
  rewrite (IH Hr). reflexivity.
Qed.

Lemma digit_pretty_N_char d :
  (d < 10)%N -> Py.digit (pretty_N_char d) = Some (Z.of_N d).
Proof.
  intros Hd.
  assert (d = 0 \/ d = 1 \/ d = 2 \/ d = 3 \/ d = 4 \/ d = 5 \/ d = 6 \/ d = 7
          \/ d = 8 \/ d = 9)%N as Hcases by lia.
  repeat (destruct Hcases as [-> | Hcases]; [reflexivity|]).
  subst. reflexivity.
Qed.

(** The digits that [str()] writes for [x], read back by [int()] in front of
    any text [s]. *)
Lemma digits_pretty_N_go x :
  (0 < x)%N ->
  exists k, 0 <= k /\ forall acc b s,
    Py.digits acc b (pretty_N_go x s)
    = Py.digits (acc * 10 ^ k + Z.of_N x) true s.
Proof.
  induction (N.lt_wf_0 x) as [x _ IH]. intros Hx.
  assert (Hmod : (x `mod` 10 < 10)%N) by (apply N.mod_lt; lia).
  assert (Hdm : x = (10 * (x `div` 10) + x `mod` 10)%N)
    by (apply N.div_mod; lia).
  destruct (N.eq_dec (x `div` 10)%N 0%N) as [Hz|Hnz].
  - exists 1. split; [lia|]. intros acc b s.
    rewrite pretty_N_go_step by done. rewrite Hz, pretty_N_go_0.
    cbn [Py.digits]. rewrite digit_pretty_N_char by done.
    f_equal. lia.
  - destruct (IH (x `div` 10)%N) as (k & Hk & Hgo);
      [apply N.div_lt; lia | lia |].
    exists (k + 1). split; [lia|]. intros acc b s.
    rewrite pretty_N_go_step by done. rewrite Hgo.
    cbn [Py.digits]. rewrite digit_pretty_N_char by done.
    f_equal. rewrite Z.pow_add_r by lia.
    replace (Z.of_N x) with (10 * Z.of_N (x `div` 10) + Z.of_N (x `mod` 10))
      by lia.
    lia.
Qed.

Lemma all_chars_pretty_N_go P x : forall s,
  (forall d, (d < 10)%N -> P (pretty_N_char d) = true) ->
  all_chars P s = true -> all_chars P (pretty_N_go x s) = true.
Proof.
  induction (N.lt_wf_0 x) as [x _ IH]. intros s Hd Hs.
  destruct (N.eq_dec x 0%N) as [->|Hx]; [rewrite pretty_N_go_0; exact Hs|].
  rewrite pretty_N_go_step by lia.
  apply IH; [apply N.div_lt; lia | exact Hd |].
  simpl. rewrite Hd by (apply N.mod_lt; lia). exact Hs.
Qed.

Lemma numeral_char_pretty_N_char d :
  (d < 10)%N -> numeral_char (pretty_N_char d) = true.
Proof.
  intros Hd. unfold numeral_char. rewrite digit_pretty_N_char by done.
  reflexivity.
Qed.

(** [str(z)] is written with digits and the minus sign only. *)
Lemma numeral_chars_pretty (z : Z) : all_chars numeral_char (pretty z) = true.
Proof.
  destruct z as [|p|p]; [reflexivity | |].
  - unfold pretty, pretty_Z, pretty, pretty_positive, pretty, pretty_N.
    rewrite decide_False by done.
    apply all_chars_pretty_N_go; [apply numeral_char_pretty_N_char | done].
  - unfold pretty, pretty_Z, pretty, pretty_positive, pretty, pretty_N.
    rewrite decide_False by done. simpl.
    apply all_chars_pretty_N_go; [apply numeral_char_pretty_N_char | done].
Qed.

Lemma int_unsigned s :
  all_chars (fun c => negb (Py.isspace c)) s = true ->
  (forall r, s <> String "-" r) -> (forall r, s <> String "+" r) ->
  Py.int s = Py.digits 0 false s.
Proof.
  intros Hs Hm Hp. unfold Py.int. rewrite (skip_id s Hs).
  destruct s as [|c r]; [reflexivity|].
  destruct c as [[] [] [] [] [] [] [] []]; try reflexivity;
    exfalso; first [eapply Hm; reflexivity | eapply Hp; reflexivity].
Qed.

Lemma pretty_N_go_head x s :
  (0 < x)%N ->
  exists d r, (d < 10)%N /\ pretty_N_go x s = String (pretty_N_char d) r.
Proof.
  revert s. induction (N.lt_wf_0 x) as [x _ IH]. intros s Hx.
  rewrite pretty_N_go_step by done.
  destruct (N.eq_dec (x `div` 10)%N 0%N) as [->|Hnz].
  - rewrite pretty_N_go_0. exists (x `mod` 10)%N, s.
    split; [apply N.mod_lt; lia | reflexivity].
  - apply IH; [apply N.div_lt; lia | apply N.neq_0_lt_0, Hnz].
Qed.

Lemma pretty_N_char_not_sign d r r' :
  (d < 10)%N ->
  String (pretty_N_char d) r <> String "-" r'
  /\ String (pretty_N_char d) r <> String "+" r'.
Proof.
  intros Hd.
  assert (d = 0 \/ d = 1 \/ d = 2 \/ d = 3 \/ d = 4 \/ d = 5 \/ d = 6 \/ d = 7
          \/ d = 8 \/ d = 9)%N as Hcases by lia.
  repeat (destruct Hcases as [-> | Hcases]; [split; discriminate|]).
  subst. split; discriminate.
Qed.

Lemma int_pretty_pos (p : positive) :
  Py.int (pretty_N_go (Npos p) "") = Some (Zpos p).
Proof.
  destruct (pretty_N_go_head (Npos p) "") as (d & r & Hd & Hhead); [lia|].
  rewrite int_unsigned.
  - destruct (digits_pretty_N_go (Npos p)) as (k & _ & Hgo); [lia|].
    rewrite Hgo. simpl. reflexivity.
  - eapply all_chars_impl; [|apply (all_chars_pretty_N_go numeral_char)];
      [intros c Hc; apply numeral_char_plain in Hc as [-> _]; reflexivity
      | apply numeral_char_pretty_N_char | reflexivity].
  - intros r'. rewrite Hhead. apply pretty_N_char_not_sign, Hd.
  - intros r'. rewrite Hhead. apply pretty_N_char_not_sign, Hd.
Qed.

(** [int(str(z)) == z] *)
Lemma int_pretty (z : Z) : Py.int (pretty z) = Some z.
Proof.
  destruct z as [|p|p]; [reflexivity | |].
  - unfold pretty, pretty_Z, pretty, pretty_positive, pretty, pretty_N.
    rewrite decide_False by done. apply int_pretty_pos.
  - unfold pretty, pretty_Z, pretty, pretty_positive, pretty, pretty_N.
    rewrite decide_False by done.
    unfold Py.int. rewrite skip_id.
    + change ("-" +:+ pretty_N_go (N.pos p) "")
        with (String "-" (pretty_N_go (N.pos p) "")).
      lazy iota beta.
      destruct (digits_pretty_N_go (Npos p)) as (k & _ & Hgo); [lia|].
      rewrite Hgo. simpl. reflexivity.
    + eapply all_chars_impl;
        [|apply (numeral_chars_pretty (Zneg p))].
      intros c Hc. apply numeral_char_plain in Hc as [-> _]. reflexivity.
Qed.

(** The number that a handler reads from the data of a button whose data is
    a word, an underscore and [str(z)]. *)
Lemma callback_number_pretty (word : string) (z : Z) :
  all_chars (fun d => negb (Ascii.eqb "_" d)) word = true ->
  callback_number (word +:+ "_" +:+ pretty z) = Some z.
Proof.
  intros Hw. unfold callback_number.
  assert (Hsplit : Py.split "_" (word +:+ "_" +:+ pretty z)
                   = [word; pretty z]).
  { induction word as [|c r IH].
    - simpl. rewrite split_id; [reflexivity|].
      eapply all_chars_impl; [|apply numeral_chars_pretty].
      intros c Hc. apply numeral_char_plain in Hc as [_ ->]. reflexivity.
    - simpl in Hw |- *. apply andb_true_iff in Hw as [Hc Hr].
      apply negb_true_iff in Hc. rewrite Hc.
      change (r ++ String "_" (pretty z))%string with (r +:+ "_" +:+ pretty z).
      rewrite (IH Hr). reflexivity. }
  rewrite Hsplit. simpl. apply int_pretty.
Qed.

(** ** Buttons and what pressing them does *)

Lemma startswith_product data :
  Py.startswith "product_" data = true ->
  exists rest, data = String "p" rest.
Proof.
  destruct data as [|c1 rest]; cbn [Py.startswith]; [discriminate|].
  destruct (Ascii.eqb_spec "p" c1) as [<-|]; [|discriminate].
  intros _. exists rest. reflexivity.
Qed.

Section ButtonFacts.
Context `{FloatModel}.

Lemma handle_callback_product e w u data :
  Py.startswith "product_" data = true ->
  handle_callback e w u data
  = match get_user (db w) u with
    | None =>
        Some (w, [{| message := MsgUserNotFound; reply_markup := [] |}], Stay)
    | Some _ => show_product_details e w u data
    end.
Proof.
  intros Hp. unfold handle_callback. rewrite Hp.
  apply startswith_product in Hp as [rest ->].
  destruct (get_user (db w) u) as [[first_name last_name]|]; reflexivity.
Qed.

Lemma product_button_selects e w u profile p :
  get_user (db w) u = Some profile ->
  p ∈ get_all_products (products_txt e) ->
  exists keyboard,
    handle_callback e w u ("product_" +:+ pretty (id p))
    = Some (set_user_data w u "selected_product" (id p),
            [{| message := MsgProductDetails p; reply_markup := keyboard |}],
            Stay).
Proof.
  intros Hu Hin.
  rewrite handle_callback_product by reflexivity. rewrite Hu.
  unfold show_product_details.
  assert (Hnum : callback_number ("product_" +:+ pretty (id p))
                 = Some (id p))
    by (apply (callback_number_pretty "product"); reflexivity).
  rewrite Hnum. cbn [mbind option_bind].
  assert (Hfind : get_product_by_id (products_txt e) (id p) = Some p)
    by (apply get_product_by_id_spec; split; [exact Hin | reflexivity]).
  rewrite Hfind. eexists. reflexivity.
Qed.


(** What a quantity button does for a registered user at the main menu
    who has selected a product of the catalogue. *)
Lemma quantity_button_adds e w u profile p q :
  get_user (db w) u = Some profile ->
  session w u !! "selected_product" = Some (id p) ->
  get_product_by_id (products_txt e) (id p) = Some p ->
  1 <= id p ->
  forall upd,
    from_user upd = u -> event upd = Callback ("qty_" +:+ pretty q) ->
    conversations w !! u = Some MAIN_MENU ->
    process_update e w upd
    = match add_to_cart_txn (db w) u (id p) q with
      | Some d =>
          (set_db w d,
           [{| message := MsgAdded p q;
               reply_markup :=
                 [[button "📦 Продолжить покупки" "catalog"];
                  [button "🛒 Перейти в корзину" "cart"];
                  [button "🔙 В меню" "back_to_menu"]] |}])
      | None => (w, [error_view])
      end.
Proof.
  intros Hu Hs Hfind Hpos upd Hfrom Hev Hc.
  unfold process_update, route. rewrite Hfrom, Hev, Hc.
  rewrite handle_callback_qty by reflexivity. rewrite Hu.
  unfold add_to_cart_handler.
  assert (Hnum : callback_number ("qty_" +:+ pretty q) = Some q)
    by (apply (callback_number_pretty "qty"); reflexivity).
  rewrite Hnum. cbn [mbind option_bind]. rewrite Hs.
  destruct (id p) as [|x|x] eqn:Hid; [lia | |]; rewrite Hfind;
    (destruct (add_to_cart_txn _ _ _ _); cbn [mbind option_bind];
     [rewrite set_conversation_stay|]; reflexivity).
Qed.

(** X14. Selecting a product and then a quantity composes into one
    [add_to_cart]: when a registered user at the main menu presses the
    button of a product of the catalogue and then a quantity button with
    data [qty_<q>], and the catalogue is the same at both moments, the
    database afterwards is the one that [add_to_cart] of the product and
    [q] leaves of the database before. When the call returns, the reply is
    the confirmation of the add; when a binding overflows, the database is
    as it was and the reply is the one of [error_handler]. *)
Theorem select_then_quantity_adds e e' w u profile p q :
  conversations w !! u = Some MAIN_MENU ->
  get_user (db w) u = Some profile ->
  p ∈ get_all_products (products_txt e) ->
  products_txt e' = products_txt e ->
  let select := {| from_user := u;
                   event := Callback ("product_" +:+ pretty (id p)) |} in
  let quantity := {| from_user := u;
                     event := Callback ("qty_" +:+ pretty q) |} in
  db (run w [(e, select); (e', quantity)]) = add_to_cart (db w) u (id p) q
  /\ match add_to_cart_txn (db w) u (id p) q with
     | Some d =>
         d = add_to_cart (db w) u (id p) q
         /\ map message
               (snd (process_update e' (fst (process_update e w select))
                                    quantity))
            = [MsgAdded p q]
     | None =>
         db w = add_to_cart (db w) u (id p) q
         /\ snd (process_update e' (fst (process_update e w select)) quantity)
            = [error_view]
     end.
Proof.
  intros Hc Hu Hin He select quantity.
  destruct (product_button_selects e w u profile p Hu Hin)
    as [keyboard Hsel].
  set (w1 := set_user_data w u "selected_product" (id p)).
  assert (Hfirst : fst (process_update e w select) = w1).
  { unfold process_update, route, select. cbn [from_user event].
    rewrite Hc, Hsel. cbn [fst]. apply set_conversation_stay. }
  assert (Hfind : get_product_by_id (products_txt e') (id p) = Some p)
    by (rewrite He; apply get_product_by_id_spec; split;
        [exact Hin | reflexivity]).
  assert (Hs : session w1 u !! "selected_product" = Some (id p))
    by (unfold w1; rewrite session_set_user_data_same; apply lookup_insert_eq).
  cbn [run]. rewrite Hfirst.
  rewrite (quantity_button_adds e' w1 u profile p q Hu Hs Hfind
             (get_all_products_id_positive _ _ Hin) quantity eq_refl eq_refl
             Hc).
  change (db w1) with (db w). unfold add_to_cart.
  destruct (add_to_cart_txn (db w) u (id p) q) as [d|];
    split_and!; reflexivity.
Qed.

End ButtonFacts.


(** X14, witness. Ann presses the widget and then [qty_3]. *)
Lemma select_then_quantity_adds_witness :
  db (@run DecimalFloat Sample.registered
        [Sample.from_ann (Callback "product_1");
         Sample.from_ann (Callback "qty_3")])
  = add_to_cart (db Sample.registered) 7 1 3.
Proof.
  refine (proj1 (@select_then_quantity_adds DecimalFloat Sample.env Sample.env
                   Sample.registered 7 ("Ann", "Lee")
                   (@Build_Product DecimalFloat 1 "Widget" (1000, 2%nat) "desc")
                   3 _ _ _ _)).
  - vm_compute. reflexivity.
  - vm_compute. reflexivity.
  - apply list_elem_of_In. left. reflexivity.
  - reflexivity.
Defined.

(** ** Edge behaviour of the dispatch *)

Section DispatchFacts.
Context `{FloatModel}.

(** X15. A product or quantity button whose number cannot be read (no
    digits, letters, a second underscore right after the first) makes the
    handler raise: for a registered user at the main menu the only reply is
    the one of [error_handler], and the world is as it was. *)
Theorem malformed_number_is_an_error e w upd data profile :
  event upd = Callback data ->
  conversations w !! from_user upd = Some MAIN_MENU ->
  get_user (db w) (from_user upd) = Some profile ->
  Py.startswith "product_" data = true \/ Py.startswith "qty_" data = true ->
  callback_number data = None ->
  process_update e w upd = (w, [error_view]).
Proof.
  intros Hev Hc Hu Hpre Hnum. unfold process_update, route.
  rewrite Hev, Hc. destruct Hpre as [Hp|Hq].
  - rewrite handle_callback_product, Hu by exact Hp.
    unfold show_product_details. rewrite Hnum. reflexivity.
  - rewrite handle_callback_qty, Hu by exact Hq.
    unfold add_to_cart_handler. rewrite Hnum. reflexivity.
Qed.

Lemma browsing_outcome e w u data :
  data = "catalog" \/ data = "cart" \/ data = "orders"
  \/ data = "back_to_menu" ->
  handle_callback e w u data = None
  \/ exists views, handle_callback e w u data = Some (w, views, Stay).
Proof.
  intros Hd. unfold handle_callback.
  destruct (get_user (db w) u) as [[first_name last_name]|];
    [|right; eexists; reflexivity].
  destruct Hd as [-> | [-> | [-> | ->]]]; cbn [String.eqb Ascii.eqb Bool.eqb].
  - unfold show_catalog. destruct (get_all_products _);
      right; eexists; reflexivity.
  - unfold show_cart. destruct (get_cart_items _ _ _);
      right; eexists; reflexivity.
  - rewrite show_user_orders_page.
    destruct (get_user_orders _ _ _); [right; eexists; reflexivity|].
    destruct (orders_view _ _ _); [right; eexists | left]; reflexivity.
  - right. eexists. reflexivity.
Qed.

(** X16. Browsing is read-only: the selections [catalog], [cart], [orders]
    and [back_to_menu] change nothing in the world, in whatever state the
    conversation of the user is. *)
Theorem browsing_changes_nothing e w upd data :
  event upd = Callback data ->
  data = "catalog" \/ data = "cart" \/ data = "orders"
  \/ data = "back_to_menu" ->
  fst (process_update e w upd) = w.
Proof.
  intros Hev Hd.
  pose proof (browsing_outcome e w (from_user upd) data Hd) as Hout.
  assert (Hcb : fst (match handle_callback e w (from_user upd) data with
                     | None => (w, [error_view])
                     | Some (w', views, next) =>
                         (set_conversation w' (from_user upd) next, views)
                     end) = w).
  { destruct Hout as [-> | [views ->]]; [reflexivity|].
    apply set_conversation_stay. }
  unfold process_update, route. rewrite Hev.
  destruct (conversations w !! from_user upd) as [[|]|]; try exact Hcb;
    destruct (menu_pattern data || page_pattern data);
    first [exact Hcb | reflexivity].
Qed.

(** X17. [/cancel] ends the conversation and nothing else: the database,
    the ledger and the [user_data] of the user (the selected product
    included) stay as they are, and a later [/start] brings a registered
    user back to the main menu. *)
Theorem cancel_keeps_everything e e' w u s profile :
  conversations w !! u = Some s ->
  get_user (db w) u = Some profile ->
  let w1 := fst (process_update e w {| from_user := u; event := CmdCancel |}) in
  let w2 := fst (process_update e' w1 {| from_user := u; event := CmdStart |}) in
  db w1 = db w /\ orders_xlsx w1 = orders_xlsx w
  /\ user_data w1 = user_data w /\ conversations w1 !! u = None
  /\ db w2 = db w /\ user_data w2 = user_data w
  /\ conversations w2 !! u = Some MAIN_MENU.
Proof.
  intros Hc Hu w1 w2.
  assert (Hw1 : w1 = set_conversation w u END).
  { unfold w1, process_update, route. cbn [from_user event]. rewrite Hc.
    destruct s; reflexivity. }
  assert (Hc1 : conversations w1 !! u = None).
  { rewrite Hw1. simpl. apply lookup_delete_eq. }
  assert (Hw2 : w2 = set_conversation w1 u (To MAIN_MENU)).
  { unfold w2, process_update, route. cbn [from_user event]. rewrite Hc1.
    unfold start. replace (db w1) with (db w) by (rewrite Hw1; reflexivity).
    rewrite Hu. destruct profile. reflexivity. }
  rewrite Hw2. cbn [db user_data set_conversation conversations].
  rewrite Hw1. cbn [db user_data orders_xlsx set_conversation conversations].
  split_and!; try reflexivity.
  - apply lookup_delete_eq.
  - apply lookup_insert_eq.
Qed.

(** X18. Outside the state MAIN_MENU a product or quantity button is dead:
    the pattern of the handler registered outside the conversation ends
    with [$], so it takes the bare words only, and data [product_<rest>] or
    [qty_<rest>] with a non-empty [rest] finds no handler; nothing is sent
    and nothing changes. *)
Theorem numbered_button_outside_menu_is_dropped e w upd word rest :
  word = "product_" \/ word = "qty_" ->
  event upd = Callback (word +:+ rest) ->
  conversations w !! from_user upd <> Some MAIN_MENU ->
  rest <> "" -> rest <> String "010" "" ->
  process_update e w upd = (w, []).
Proof.
  intros Hword Hev Hc Hr Hn.
  assert (Hpat : menu_pattern (word +:+ rest) || page_pattern (word +:+ rest)
                 = false).
  { destruct Hword as [-> | ->]; unfold menu_pattern, page_pattern;
      cbn [existsb];
      repeat match goal with
             | |- context [String.eqb ?a ?b] =>
                 rewrite (proj2 (String.eqb_neq a b))
                   by (intros Heq; cbv [String.append] in Heq;
                       first [discriminate Heq
                             | injection Heq; intros; congruence])
             end;
      reflexivity. }
  unfold process_update, route. rewrite Hev.
  destruct (conversations w !! from_user upd) as [[|]|];
    [| congruence |]; rewrite Hpat; reflexivity.
Qed.

End DispatchFacts.

(** X15, witness. Ann, at the main menu, sends [product_abc]; and, with
    the widget selected, a quantity whose digit follows the control
    character U+001C, which [int()] does not skip: nothing is added. *)
Lemma malformed_number_is_an_error_witness :
  @process_update DecimalFloat Sample.env Sample.registered
    {| from_user := 7; event := Callback "product_abc" |}
  = (Sample.registered, [@error_view DecimalFloat])
  /\ @process_update DecimalFloat Sample.env Sample.widget_chosen
       {| from_user := 7; event := Callback ("qty_" +:+ String "028" "5") |}
     = (Sample.widget_chosen, [@error_view DecimalFloat]).
Proof.
  split.
  - apply (@malformed_number_is_an_error DecimalFloat Sample.env
             Sample.registered
             {| from_user := 7; event := Callback "product_abc" |}
             "product_abc" ("Ann", "Lee")).
    + reflexivity.
    + vm_compute. reflexivity.
    + vm_compute. reflexivity.
    + left. reflexivity.
    + vm_compute. reflexivity.
  - apply (@malformed_number_is_an_error DecimalFloat Sample.env
             Sample.widget_chosen
             {| from_user := 7;
                event := Callback ("qty_" +:+ String "028" "5") |}
             ("qty_" +:+ String "028" "5") ("Ann", "Lee")).
    + reflexivity.
    + vm_compute. reflexivity.
    + vm_compute. reflexivity.
    + right. reflexivity.
    + vm_compute. reflexivity.
Defined.

(** X16, witness. Ann looks at her cart. *)
Lemma browsing_changes_nothing_witness :
  fst (@process_update DecimalFloat Sample.env Sample.with_cart
         {| from_user := 7; event := Callback "cart" |})
  = Sample.with_cart.
Proof.
  apply (@browsing_changes_nothing DecimalFloat Sample.env Sample.with_cart
           {| from_user := 7; event := Callback "cart" |} "cart").
  - reflexivity.
  - right. left. reflexivity.
Defined.

(** X17, witness. Ann cancels with three widgets in her cart and the widget
    selected, then sends [/start]: cart and selection are still there. *)
Lemma cancel_keeps_everything_witness :
  let w1 := fst (@process_update DecimalFloat Sample.env Sample.with_cart
                   {| from_user := 7; event := CmdCancel |}) in
  let w2 := fst (@process_update DecimalFloat Sample.env w1
                   {| from_user := 7; event := CmdStart |}) in
  db w2 = db Sample.with_cart /\ user_data w2 = user_data Sample.with_cart
  /\ conversations w2 !! 7 = Some MAIN_MENU.
Proof.
  destruct (@cancel_keeps_everything DecimalFloat Sample.env Sample.env
              Sample.with_cart 7 MAIN_MENU ("Ann", "Lee"))
    as (_ & _ & _ & _ & Hdb & Hud & Hconv).
  - vm_compute. reflexivity.
  - vm_compute. reflexivity.
  - split_and!; assumption.
Defined.

(** X18, witness. Before any [/start], the data [qty_5] finds no handler. *)
Lemma numbered_button_outside_menu_is_dropped_witness :
  @process_update DecimalFloat Sample.env Sample.fresh
    {| from_user := 7; event := Callback "qty_5" |}
  = (Sample.fresh, []).
Proof.
  apply (@numbered_button_outside_menu_is_dropped DecimalFloat Sample.env
           Sample.fresh {| from_user := 7; event := Callback "qty_5" |}
           "qty_" "5").
  - right. reflexivity.
  - reflexivity.
  - vm_compute. discriminate.
  - discriminate.
  - discriminate.
Defined.

(** ** Registration *)

(** Every word of [s.split()] is non-empty and free of whitespace. *)
Lemma words_tokens s :
  Forall (fun t => t <> ""
                   /\ all_chars (fun c => negb (Py.isspace c)) t = true)
         (Py.words s).
Proof.
  induction s as [|c r IH]; [constructor|].
  cbn [Py.words]. destruct (Py.isspace c) eqn:Hc; [exact IH|].
  destruct r as [|d r'].
  - repeat constructor; [discriminate | simpl; rewrite Hc; reflexivity].
  - destruct (Py.isspace d) eqn:Hd.
    + constructor; [|exact IH].
      split; [discriminate | simpl; rewrite Hc; reflexivity].
    + destruct (Py.words (String d r')) as [|h t].
      * repeat constructor; [discriminate | simpl; rewrite Hc; reflexivity].
      * inversion IH as [|? ? [Hh1 Hh2] Ht]; subst.
        constructor; [|exact Ht].
        split; [discriminate | simpl; rewrite Hc, Hh2; reflexivity].
Qed.

Section RegistrationFacts.
Context `{FloatModel}.

(** X19. Registration composes: for a user who is not registered and has no
    conversation, [/start] followed by a text of at least two words stores
    the first word as the first name and the other words, joined by single
    spaces, as the last name, and leaves the user at the main menu; the
    carts and the ledger are untouched, and the stored first name is a
    non-empty word without whitespace. *)
Theorem registration_flow e1 e2 w u text first_name second rest :
  conversations w !! u = None ->
  get_user (db w) u = None ->
  Py.words (Py.strip text) = first_name :: second :: rest ->
  let w2 := run w [(e1, {| from_user := u; event := CmdStart |});
                   (e2, {| from_user := u; event := TextMessage text |})] in
  get_user (db w2) u = Some (first_name, Py.join " " (second :: rest))
  /\ conversations w2 !! u = Some MAIN_MENU
  /\ cart_items (db w2) = cart_items (db w)
  /\ orders_xlsx w2 = orders_xlsx w
  /\ first_name <> ""
  /\ all_chars (fun c => negb (Py.isspace c)) first_name = true.
Proof.
  intros Hc Hu Hw w2.
  assert (Hw1 : fst (process_update e1 w {| from_user := u; event := CmdStart |})
                = set_conversation w u (To GET_NAME)).
  { unfold process_update, route. cbn [from_user event]. rewrite Hc.
    unfold start. rewrite Hu. reflexivity. }
  assert (Hw2 : w2 = set_conversation
                       (set_db w (add_user (db w) u first_name
                                           (Py.join " " (second :: rest))))
                       u (To MAIN_MENU)).
  { unfold w2. cbn [run]. rewrite Hw1.
    unfold process_update, route. cbn [from_user event conversations
                                       set_conversation].
    rewrite lookup_insert_eq. unfold get_user_name. rewrite Hw.
    destruct w as [d ws ud cs]. unfold set_db, set_conversation. simpl.
    rewrite insert_insert_eq. reflexivity. }
  rewrite Hw2. cbn [db set_conversation set_db conversations orders_xlsx].
  pose proof (words_tokens (Py.strip text)) as Htok. rewrite Hw in Htok.
  inversion Htok as [|? ? [Hne Hns] _]; subst.
  split_and!; try done.
  - unfold get_user, add_user. cbn [users]. apply lookup_insert_eq.
  - apply lookup_insert_eq.
Qed.

(** X20. A name of fewer than two words is refused: in the state GET_NAME
    the only reply is the request to enter first and last name, nobody is
    registered, and the conversation stays in GET_NAME for another try. *)
Theorem short_name_is_refused e w u text :
  conversations w !! u = Some GET_NAME ->
  (length (Py.words (Py.strip text)) < 2)%nat ->
  process_update e w {| from_user := u; event := TextMessage text |}
  = (w, [{| message := MsgNameRejected; reply_markup := [] |}]).
Proof.
  intros Hc Hlen. unfold process_update, route. cbn [from_user event].
  rewrite Hc. unfold get_user_name.
  assert (Hsame : set_conversation w u (To GET_NAME) = w).
  { destruct w as [d ws ud cs]. unfold set_conversation. simpl in *.
    rewrite insert_id by exact Hc. reflexivity. }
  destruct (Py.words (Py.strip text)) as [|a [|b l]]; simpl in Hlen;
    [rewrite Hsame; reflexivity | rewrite Hsame; reflexivity | lia].
Qed.

End RegistrationFacts.

(** X19, witness. Ann registers with spaces around and inside her name. *)
Lemma registration_flow_witness :
  get_user
    (db (@run DecimalFloat Sample.fresh
           [(Sample.env, {| from_user := 7; event := CmdStart |});
            (Sample.env, {| from_user := 7;
                            event := TextMessage "  Ann   Lee Ray " |})])) 7
  = Some ("Ann", "Lee Ray").
Proof.
  apply (@registration_flow DecimalFloat Sample.env Sample.env Sample.fresh 7
           "  Ann   Lee Ray " "Ann" "Lee" ["Ray"]).
  - vm_compute. reflexivity.
  - vm_compute. reflexivity.
  - vm_compute. reflexivity.
Defined.

(** X20, witness. After [/start], the single word [Ann] is refused. *)
Lemma short_name_is_refused_witness :
  let w := fst (@process_update DecimalFloat Sample.env Sample.fresh
                  {| from_user := 7; event := CmdStart |}) in
  @process_update DecimalFloat Sample.env w
    {| from_user := 7; event := TextMessage "Ann" |}
  = (w, [{| message := MsgNameRejected; reply_markup := [] |}]).
Proof.
  apply (@short_name_is_refused DecimalFloat).
  - vm_compute. reflexivity.
  - vm_compute. lia.
Defined.

(** ** The orders view and the ledger, end to end *)


Section OrdersFacts.
Context `{FloatModel}.



Lemma append_all_reads (batch : list (string * string * list CartItem)) name :
  forall ws : Sheet,
  ws <> [] -> even_sheet ws ->
  Forall (fun '(_, n, _) => Py.nonempty n = true) batch ->
  get_user_orders true (append_all ws batch) name
  = get_user_orders true ws name ++ orders_named name batch.
Proof.
  induction batch as [|[[t n] cart] batch IH]; intros ws Hne Hev Hall.
  - simpl. symmetry. apply app_nil_r.
  - inversion Hall as [|? ? Hn Hrest]; subst.
    unfold append_all. cbn [fold_left]. fold (append_all
      (snd (add_order true true t ws n cart)) batch).
    rewrite IH; [| |apply add_order_even, Hev | exact Hrest].
    + rewrite add_order_spec. cbn [orders_named flat_map andb].
      destruct (storable_order t n cart); cbn [snd andb].
      * rewrite get_user_orders_snoc;
          [|exact Hne | exact Hev
           |unfold truncate; rewrite first_chars_nonempty by lia; exact Hn].
        rewrite <- app_assoc. reflexivity.
      * reflexivity.
    + rewrite add_order_spec.
      destruct (true && true && _); cbn [snd]; [|exact Hne].
      intros Heq. apply app_eq_nil in Heq as [_ Heq]. discriminate.
Qed.

(** X22. The ledger round trip over any number of orders. On a ledger with
    a header and rows of even width, after the orders of a batch were
    appended in turn (each for a customer with a non-empty name),
    [get_user_orders] returns for every name the orders it returned before
    followed by the orders of the batch that [ws.append] accepted and
    stored under exactly that name, in the order of the appends: oldest
    first, nothing lost, nothing of another name mixed in. An order that
    holds an illegal character is not appended and does not show; the
    strings of the others show as the cells hold them, cut to 32767
    characters. *)
Theorem ledger_round_trip (ws : Sheet)
    (batch : list (string * string * list CartItem)) name :
  ws <> [] -> even_sheet ws ->
  Forall (fun '(_, n, _) => Py.nonempty n = true) batch ->
  get_user_orders true (append_all ws batch) name
  = get_user_orders true ws name ++ orders_named name batch.
Proof. intros. apply append_all_reads; assumption. Qed.

(** X23. A successful checkout shows up in the order history: for a
    registered user with a non-empty cart listing, on a ledger with a header
    and rows of even width, when [add_order] succeeds (the workbook loads
    and saves and the strings of the order are ones that a cell accepts)
    and the full name of the user is no longer than a cell, [checkout]
    returns and the orders read afterwards under the name of the user are
    the orders read before followed by one order with the date of the
    checkout and the lines of the cart. *)
Theorem checkout_then_orders e w u first_name last_name :
  let full_name := first_name +:+ " " +:+ last_name in
  let cart := get_cart_items (products_txt e) (db w) u in
  get_user (db w) u = Some (first_name, last_name) ->
  cart <> [] ->
  fst (add_order (xlsx_loads e) (xlsx_saves e) (now e) (orders_xlsx w)
                 full_name cart) = true ->
  (N.of_nat (String.length full_name) <= 32767)%N ->
  orders_xlsx w <> [] -> even_sheet (orders_xlsx w) ->
  exists w' views,
    checkout e w u = Some (w', views, Stay)
    /\ get_user_orders true (orders_xlsx w') full_name
       = get_user_orders true (orders_xlsx w) full_name
         ++ [{| date := CStr (truncate (now e));
                items := ledger_items (stored_cart cart) |}].
Proof.
  intros full_name cart Hu Hcart Hok Hlen Hne Hev.
  unfold checkout. rewrite Hu. fold full_name cart. cbv zeta.
  destruct cart as [|item rest] eqn:Hc; [done|].
  rewrite add_order_spec in Hok |- *.
  destruct (_ && _ && _); [clear Hok | discriminate Hok].
  eexists _, _. split; [reflexivity|].
  cbn [orders_xlsx set_db set_orders_xlsx].
  assert (Htr : truncate full_name = full_name)
    by (apply first_chars_short, Hlen).
  rewrite Htr, get_user_orders_snoc; [|exact Hne | exact Hev |].
  - rewrite String.eqb_refl. reflexivity.
  - destruct first_name; reflexivity.
Qed.

End OrdersFacts.


(** X22, witness. Two orders of Ann Lee around one of Bob Ray. *)
Lemma ledger_round_trip_witness :
  map date
      (get_user_orders true
         (@append_all DecimalFloat [headers]
            [("t1", "Ann Lee", Sample.five_items);
             ("t2", "Bob Ray", Sample.five_items);
             ("t3", "Ann Lee", [(1, "PLA", (15000, 2%nat), 2)])])
         "Ann Lee")
  = [CStr "t1"; CStr "t3"].
Proof.
  rewrite (@ledger_round_trip DecimalFloat [headers]).
  - reflexivity.
  - discriminate.
  - repeat constructor. exists 5%nat. reflexivity.
  - repeat constructor.
Defined.

(** X23, witness. Ann checks out three widgets on the ledger that holds only
    its header. *)
Lemma checkout_then_orders_witness :
  exists w' views,
    @checkout DecimalFloat Sample.env Sample.with_cart 7
    = Some (w', views, Stay)
    /\ get_user_orders true (orders_xlsx w') "Ann Lee"
       = [{| date := CStr "2024-05-01 12:00:00";
             items := [{| product := CStr "Widget";
                          item_quantity := CInt 3 |}] |}].
Proof.
  destruct (@checkout_then_orders DecimalFloat Sample.env Sample.with_cart 7
              "Ann" "Lee") as (w' & views & Hc & Hread).
  - vm_compute. reflexivity.
  - vm_compute. discriminate.
  - reflexivity.
  - vm_compute. discriminate.
  - vm_compute. discriminate.
  - repeat constructor. exists 5%nat. reflexivity.
  - exists w', views. split; [exact Hc|].
    etransitivity; [exact Hread | reflexivity].
Defined.
